(** * eCommerceSimulator: the order aggregate and the discount store

    A shallow embedding of [ecommerce/order.py]: the currency formatter
    [formatCentsToDollars], the discount table written by
    [initDiscountDatabase] and [addDiscountToDatabase], and the classes
    [BaseOrder], [Order] and [RandomOrder]. *)

From stdpp Require Import base gmap strings list fin_maps.
From Stdlib Require Import ZArith Lia Ascii.

Local Open Scope Z_scope.
Local Open Scope string_scope.

(** ** Python strings and [str] on integers *)

Module PyStr.

(** [s[n:]] for a non-negative literal [n]. *)
Fixpoint drop (n : nat) (s : string) : string :=
  match n, s with
  | O, _ => s
  | S _, EmptyString => EmptyString
  | S n', String _ s' => drop n' s'
  end.

(** [s[:n]] for a non-negative [n]. *)
Fixpoint take (n : nat) (s : string) : string :=
  match n, s with
  | O, _ => EmptyString
  | S _, EmptyString => EmptyString
  | S n', String c s' => String c (take n' s')
  end.

(** [s[:-k]]: everything but the last [k] characters; empty when the string
    is shorter than [k]. *)
Definition slice_to_neg (k : nat) (s : string) : string :=
  take (String.length s - k) s.

(** [s[-k:]]: the last [k] characters; the whole string when it is shorter. *)
Definition slice_from_neg (k : nat) (s : string) : string :=
  drop (String.length s - k) s.

(** The character of a decimal digit [0 <= d < 10]. *)
Definition digit (d : Z) : string :=
  String (Ascii.ascii_of_N (48 + Z.to_N d)) EmptyString.

(** Decimal digits of a non-negative integer, most significant first; one
    unit of fuel per digit. *)
Fixpoint str_digits_fuel (fuel : nat) (n : Z) : string :=
  match fuel with
  | O => EmptyString
  | S fuel' =>
      if decide (n < 10) then digit n
      else str_digits_fuel fuel' (n / 10) +:+ digit (n mod 10)
  end.

(** A number has no more decimal digits than binary ones. *)
Definition str_digits (n : Z) : string :=
  str_digits_fuel (S (Z.to_nat (Z.log2 n))) n.

(** Python's [str] on an [int]. *)
Definition str (n : Z) : string :=
  if decide (n < 0) then "-" +:+ str_digits (- n) else str_digits n.

End PyStr.

(** ** [formatCentsToDollars] *)

Definition formatCentsToDollars (cents : Z) : string :=
  let temp := PyStr.str cents in
  let '(temp, cents, negative) :=
    if decide (cents < 0)
    then (PyStr.drop 1 temp, Z.abs cents, true)
    else (temp, cents, false) in
  let temp :=
    if decide (cents < 10) then "$0.0" +:+ temp
    else if decide (cents < 100) then "$0." +:+ temp
    else "$" +:+ PyStr.slice_to_neg 2 temp +:+ "." +:+ PyStr.slice_from_neg 2 temp in
  if negb negative then temp else "-" +:+ temp.

(** ** Exceptions, and calls that may raise while mutating a state *)

Inductive exn : Type :=
| ProductNotFoundError
| KeyError (key : string)
| IndexError
| EOFError
| ValueError (msg : string)
| OverflowError
| ProgrammingError (msg : string)
| OperationalError (msg : string)
| IntegrityError (msg : string).

Inductive result (A : Type) : Type :=
| Ok (a : A)
| Raise (e : exn).
Arguments Ok {A} a.
Arguments Raise {A} e.

(** A call on a mutable object of type [S]: the value or the exception, and
    the object as the call leaves it. *)
Definition M (S A : Type) : Type := S -> result A * S.

#[global] Instance M_ret {S} : MRet (M S) := fun A a s => (Ok a, s).

#[global] Instance M_bind {S} : MBind (M S) := fun A B k m s =>
  match m s with
  | (Ok a, s') => k a s'
  | (Raise e, s') => (Raise e, s')
  end.

Definition raise {S A} (e : exn) : M S A := fun s => (Raise e, s).

(** ** The product catalog *)

Module products.

Record Product : Type := { name : string; price : Z }.

Section Catalog.
Variable catalog : gmap string Product.

(** Modelled from the spec: the [products] module is imported by
    [order.py] but is not among the sources.  The catalog reports
    existence of an identifier and returns the product's attributes,
    failing with [ProductNotFoundError] for an absent identifier. *)
Definition productExists (productUUID : string) : bool :=
  bool_decide (is_Some (catalog !! productUUID)).

Definition getProductByUUID (productUUID : string) : result Product :=
  match catalog !! productUUID with
  | Some p => Ok p
  | None => Raise ProductNotFoundError
  end.

(** The rows of [SELECT uuid FROM products]. *)
Definition select_uuid : list string := (map_to_list catalog).*1.
End Catalog.

End products.

(** ** Python's [random], driven by a stream of raw draws *)

Module random.

Definition choice (r : nat) (l : list string) : result string :=
  match l !! (r mod length l)%nat with
  | Some x => Ok x
  | None => Raise IndexError
  end.

Definition randint (r : nat) (a b : Z) : Z := a + Z.of_nat r mod (b - a + 1).

End random.

(** ** Orders *)

Definition UUID : Type := N.

Record BaseOrder : Type := {
  productList : gmap string Z;
  orderID : UUID
}.

Definition MAX_QUANTITY : Z := 25.

(** [BaseOrder.__init__]; [uuid] is what [uuid4()] returns. *)
Definition BaseOrder_init (uuid : UUID) : BaseOrder :=
  {| productList := ∅; orderID := uuid |}.

(** The order with its [productList] mutated into [d]. *)
Definition with_productList (self : BaseOrder) (d : gmap string Z) : BaseOrder :=
  {| productList := d; orderID := orderID self |}.

(** *** The dictionary operations on [self.productList] *)

Definition dict_get (k : string) : M BaseOrder (option Z) :=
  fun self => (Ok (productList self !! k), self).

Definition dict_contains (k : string) : M BaseOrder bool :=
  fun self =>
    (Ok (match productList self !! k with Some _ => true | None => false end),
     self).

Definition dict_getitem (k : string) : M BaseOrder Z :=
  fun self =>
    match productList self !! k with
    | Some v => (Ok v, self)
    | None => (Raise (KeyError k), self)
    end.

Definition dict_setitem (k : string) (v : Z) : M BaseOrder unit :=
  fun self =>
    (Ok tt, with_productList self (<[k:=v]> (productList self))).

Definition dict_pop (k : string) : M BaseOrder Z :=
  fun self =>
    match productList self !! k with
    | Some v => (Ok v, with_productList self (delete k (productList self)))
    | None => (Raise (KeyError k), self)
    end.

(** [self.productList[k] += d] *)
Definition dict_iadd (k : string) (d : Z) : M BaseOrder unit :=
  v ← dict_getitem k; dict_setitem k (v + d).

(** Truth value of [dict.get(k)]: [None] and [0] are false. *)
Definition truthy (v : option Z) : bool :=
  match v with
  | None => false
  | Some q => negb (bool_decide (q = 0))
  end.

Definition diagnostic : string :=
  "Something is very wrong with the order...".

Section Orders.
Variable catalog : gmap string products.Product.

Definition addProduct (productUUID : string) : M BaseOrder unit :=
  if negb (products.productExists catalog productUUID)
  then raise ProductNotFoundError
  else
    quantity ← dict_get productUUID;
    match quantity with
    | None => dict_setitem productUUID 1
    | Some quantity =>
        if decide (quantity <= MAX_QUANTITY)
        then dict_iadd productUUID 1
        else mret tt
    end.

Definition removeProduct (productUUID : string) : M BaseOrder unit :=
  if negb (products.productExists catalog productUUID)
  then raise ProductNotFoundError
  else
    val ← dict_get productUUID;
    if decide (val = Some 1) then _ ← dict_pop productUUID; mret tt
    else if decide (val = None) then mret tt
    else dict_iadd productUUID (-1).

Definition setQuantity (productUUID : string) (quantity : Z) : M BaseOrder unit :=
  if negb (products.productExists catalog productUUID)
  then raise ProductNotFoundError
  else if decide (quantity = 0) then _ ← dict_pop productUUID; mret tt
  else
    present ← dict_contains productUUID;
    if negb present then dict_setitem productUUID quantity
    else if decide (quantity <= MAX_QUANTITY) then
      v ← dict_get productUUID;
      if truthy v then dict_setitem productUUID quantity else mret tt
    else mret tt.

(** One iteration of the loop of [totalPrice]: the [try] appends to
    [prices], the [except products.ProductNotFoundError] prints; any other
    exception escapes. *)
Definition totalPrice_step (acc : result (list Z) * list string)
    (item : string * Z) : result (list Z) * list string :=
  match acc with
  | (Ok prices, out) =>
      match products.getProductByUUID catalog item.1 with
      | Ok p => (Ok (prices ++ [products.price p * item.2])%list, out)
      | Raise ProductNotFoundError => (Ok prices, (out ++ [diagnostic])%list)
      | Raise e => (Raise e, out)
      end
  | (Raise e, out) => (Raise e, out)
  end.

Definition sum (l : list Z) : Z := foldl Z.add 0 l.

(** The property [totalPrice]: its value and what it printed. *)
Definition totalPrice (self : BaseOrder) : result Z * list string :=
  match foldl totalPrice_step (Ok [], []) (map_to_list (productList self)) with
  | (Ok prices, out) => (Ok (sum prices), out)
  | (Raise e, out) => (Raise e, out)
  end.

(** [Order.__init__] *)
Definition Order_init (uuid : UUID) (orderDict : option (gmap string Z)) : BaseOrder :=
  let self := BaseOrder_init uuid in
  match orderDict with
  | Some d =>
      if decide (d = ∅) then self
      else with_productList self
             (filter (fun item => item.2 ≠ 0
                        ∧ products.productExists catalog item.1 = true) d)
  | None => self
  end.

(** The dictionary comprehension of [RandomOrder.__init__]: iteration [i]
    draws the key, then the quantity; a later key overwrites an earlier
    equal one. *)
Fixpoint RandomOrder_fill (allProducts : list string) (rnd : nat -> nat)
    (iters : list nat) (d : gmap string Z) : result (gmap string Z) :=
  match iters with
  | [] => Ok d
  | i :: rest =>
      match random.choice (rnd (2 * i)%nat) allProducts with
      | Ok k =>
          RandomOrder_fill allProducts rnd rest
            (<[k := random.randint (rnd (2 * i + 1)%nat) 1 5]> d)
      | Raise e => Raise e
      end
  end.

(** [RandomOrder.__init__] *)
Definition RandomOrder_init (uuid : UUID) (rnd : nat -> nat)
    (numRandomProducts : Z) : result BaseOrder :=
  let self := BaseOrder_init uuid in
  let allProducts := products.select_uuid catalog in
  match RandomOrder_fill allProducts rnd
          (seq 0 (Z.to_nat numRandomProducts)) ∅ with
  | Ok d => Ok (with_productList self d)
  | Raise e => Raise e
  end.

(** Calls of the three mutators, as a client issues them. *)
Inductive call : Type :=
| AddProduct (productUUID : string)
| RemoveProduct (productUUID : string)
| SetQuantity (productUUID : string) (quantity : Z).

Definition run_call (c : call) : M BaseOrder unit :=
  match c with
  | AddProduct u => addProduct u
  | RemoveProduct u => removeProduct u
  | SetQuantity u q => setQuantity u q
  end.

(** The order after a sequence of calls; a call that raises is caught by
    the client, which goes on with the order as the call left it. *)
Definition run_calls (cs : list call) (self : BaseOrder) : BaseOrder :=
  foldl (fun o c => (run_call c o).2) self cs.

(** The orders the three constructors produce, when every quantity of the
    mapping given to [Order] satisfies [Q]. *)
Inductive constructed (Q : Z -> Prop) : BaseOrder -> Prop :=
| constructed_BaseOrder uuid :
    constructed Q (BaseOrder_init uuid)
| constructed_Order_None uuid :
    constructed Q (Order_init uuid None)
| constructed_Order uuid orderDict :
    map_Forall (fun _ q => Q q) orderDict ->
    constructed Q (Order_init uuid (Some orderDict))
| constructed_RandomOrder uuid rnd n o :
    RandomOrder_init uuid rnd n = Ok o -> constructed Q o.

(** The price an entry adds to the total: nothing when the product is not in
    the catalog. *)
Definition entry_price (item : string * Z) : Z :=
  match catalog !! item.1 with
  | Some p => products.price p * item.2
  | None => 0
  end.

(** The sum, over the entries of a product list, of unit price times
    quantity. *)
Definition catalog_total (d : gmap string Z) : Z :=
  foldr (fun item acc => entry_price item + acc) 0 (map_to_list d).

(** The entries whose product the catalog does not know. *)
Definition orphans (d : gmap string Z) : list (string * Z) :=
  filter (fun item => catalog !! item.1 = None) (map_to_list d).

End Orders.

(** ** The store behind [sqlite3] *)

Module sqlite3.

Inductive value : Type :=
| Null
| Integer (z : Z)
| Text (s : string).

#[global] Instance value_eq_dec : EqDecision value.
Proof. solve_decision. Defined.

(** A column of a [CREATE TABLE] statement; [col_unique] is set by a
    [PRIMARY KEY] or [UNIQUE] constraint on the column. *)
Record column : Type := {
  col_name : string;
  col_type : string;
  col_unique : bool
}.

Record table : Type := {
  columns : list column;
  rows : list (list value)
}.

(** The database file: its tables by name.  [connect] creates an empty
    file when there is none. *)
Abbreviation database := (gmap string table).

(** Python values as they are bound to a [?]. *)
Definition adapt_int (v : option Z) : result value :=
  match v with
  | None => Ok Null
  | Some z =>
      if decide (- 2 ^ 63 <= z < 2 ^ 63) then Ok (Integer z)
      else Raise OverflowError
  end.

Definition adapt_bool (v : option bool) : value :=
  match v with
  | None => Null
  | Some b => Integer (if b then 1 else 0)
  end.

(** [CREATE TABLE tname (...)] *)
Definition create_table (tname : string) (cols : list column) : M database unit :=
  fun db =>
    match db !! tname with
    | Some _ => (Raise (OperationalError "table already exists"), db)
    | None => (Ok tt, <[tname := {| columns := cols; rows := [] |}]> db)
    end.

(** Does [row] repeat, in a column declared unique, the non-null value
    some stored row has there? *)
Definition violates_unique (t : table) (row : list value) : bool :=
  existsb
    (fun i =>
       match columns t !! i, row !! i with
       | Some c, Some v =>
           col_unique c && negb (bool_decide (v = Null))
           && existsb (fun r => bool_decide (r !! i = Some v)) (rows t)
       | _, _ => false
       end)
    (seq 0 (length (columns t))).

(** [INSERT INTO tname VALUES (?, ..., ?)] *)
Definition insert (tname : string) (row : list value) : M database unit :=
  fun db =>
    match db !! tname with
    | None => (Raise (OperationalError "no such table"), db)
    | Some t =>
        if negb (bool_decide (length row = length (columns t)))
        then (Raise (OperationalError "wrong number of values"), db)
        else if violates_unique t row
        then (Raise (IntegrityError "UNIQUE constraint failed"), db)
        else (Ok tt, <[tname := {| columns := columns t;
                                   rows := (rows t ++ [row])%list |}]> db)
    end.

End sqlite3.

(** ** The discounts table *)

(** The columns of
    [CREATE TABLE discounts (discountCode text, percentage integer,
     dollarAmt integer, freeShipping boolean, expirationDateTime datetime)]:
    the statement puts no constraint on any of them. *)
Definition discounts_columns : list sqlite3.column :=
  [ {| sqlite3.col_name := "discountCode"; sqlite3.col_type := "text";
       sqlite3.col_unique := false |};
    {| sqlite3.col_name := "percentage"; sqlite3.col_type := "integer";
       sqlite3.col_unique := false |};
    {| sqlite3.col_name := "dollarAmt"; sqlite3.col_type := "integer";
       sqlite3.col_unique := false |};
    {| sqlite3.col_name := "freeShipping"; sqlite3.col_type := "boolean";
       sqlite3.col_unique := false |};
    {| sqlite3.col_name := "expirationDateTime"; sqlite3.col_type := "datetime";
       sqlite3.col_unique := false |} ].

(** [response[0].lower()]: [None] stands for the [IndexError] on an empty
    string. *)
Definition first_lower (response : string) : option Ascii.ascii :=
  match response with
  | EmptyString => None
  | String c _ =>
      let n := Ascii.N_of_ascii c in
      Some (if decide (65 <= n <= 90)%N then Ascii.ascii_of_N (n + 32) else c)
  end.

(** The loop of [initDiscountDatabase], on the current response and the lines
    still to be read from the terminal. *)
Fixpoint initDiscountDatabase_loop (response : string) (stdin : list string)
    : M sqlite3.database unit :=
  match first_lower response with
  | None => raise IndexError
  | Some c =>
      if decide (c = "y"%char)
      then sqlite3.create_table "discounts" discounts_columns
      else if decide (c = "n"%char) then mret tt
      else
        match stdin with
        | [] => raise EOFError
        | response' :: stdin' => initDiscountDatabase_loop response' stdin'
        end
  end.

Definition initDiscountDatabase (stdin : list string) : M sqlite3.database unit :=
  match stdin with
  | [] => raise EOFError
  | response :: stdin' => initDiscountDatabase_loop response stdin'
  end.

Definition isNone {A} (a : option A) : bool :=
  match a with None => true | Some _ => false end.

Definition _check_add_discount_args {A0 A1 A2}
    (arg0 : option A0) (arg1 : option A1) (arg2 : option A2) : bool :=
  (isNone arg0 && isNone arg1 && isNone arg2)
  || (isNone arg0 && negb (isNone arg1) && negb (isNone arg2))
  || (negb (isNone arg0) && negb (isNone arg1) && isNone arg2)
  || (negb (isNone arg0) && isNone arg1 && negb (isNone arg2))
  || (negb (isNone arg0) && negb (isNone arg1) && negb (isNone arg2)).

Section Discounts.
(** [datetime.datetime] and its [isoformat] method. *)
Variable datetime : Type.
Variable isoformat : datetime -> string.

Definition addDiscountToDatabase (discountCode : string)
    (percentage dollarAmt : option Z) (freeShipping : option bool)
    (expirationDate : option datetime) : M sqlite3.database unit :=
  if _check_add_discount_args percentage dollarAmt freeShipping
  then raise (ProgrammingError
    "Exactly one of `percentage`, `dollarAmt`, or `freeShipping` must not be `None`.")
  else if match percentage with
          | Some p => bool_decide (p < 1) || bool_decide (p > 100)
          | None => false
          end
  then raise (ValueError "`percentage` must be on the interval [1,100].")
  else if match dollarAmt with
          | Some d => bool_decide (d < 1)
          | None => false
          end
  then raise (ValueError "`dollarAmt` must be a positive integer.")
  else
    let _expirationDate :=
      match expirationDate with
      | None => "NULL"
      | Some d => isoformat d
      end in
    match sqlite3.adapt_int percentage, sqlite3.adapt_int dollarAmt with
    | Ok vp, Ok vd =>
        sqlite3.insert "discounts"
          [ sqlite3.Text discountCode; vp; vd;
            sqlite3.adapt_bool freeShipping; sqlite3.Text _expirationDate ]
    | Raise e, _ => raise e
    | _, Raise e => raise e
    end.
End Discounts.

(** How many of the three discount kinds are given. *)
Definition count_set (percentage dollarAmt : option Z) (freeShipping : option bool) : nat :=
  (if isNone percentage then 0 else 1)
  + (if isNone dollarAmt then 0 else 1)
  + (if isNone freeShipping then 0 else 1).

(** The stored rows whose [discountCode] column holds [code]. *)
Definition rows_with_code (code : string) (db : sqlite3.database) : list (list sqlite3.value) :=
  match db !! "discounts" with
  | Some t => filter (fun r => r !! 0%nat = Some (sqlite3.Text code)) (sqlite3.rows t)
  | None => []
  end.

(** ** Statements the theorems compare the code with *)

(** [s.zfill(width)] on a string without sign. *)
Definition zfill (width : nat) (s : string) : string :=
  String.concat "" (replicate (width - String.length s) "0") +:+ s.

(** The display string in the specification's words: an optional ["-"], then
    ["$"], the dollar part, ["."] and the cents part padded to two digits. *)
Definition dollars_and_cents (cents : Z) : string :=
  (if decide (cents < 0) then "-" else "")
  +:+ "$" +:+ PyStr.str (Z.abs cents / 100)
  +:+ "." +:+ zfill 2 (PyStr.str (Z.abs cents mod 100)).

(** A call that does not set a negative quantity. *)
Definition nonneg_call (c : call) : Prop :=
  match c with
  | SetQuantity _ q => 0 <= q
  | _ => True
  end.

(** Every stored quantity is strictly positive. *)
Definition positive_quantities (self : BaseOrder) : Prop :=
  map_Forall (fun _ q => 0 < q) (productList self).

(** A catalog of two products, for concrete runs. *)
Definition demo_catalog : gmap string products.Product :=
  {[ "A" := {| products.name := "apple"; products.price := 150 |};
     "B" := {| products.name := "bread"; products.price := 300 |} ]}.

(** The product a call is about. *)
Definition call_target (c : call) : string :=
  match c with
  | AddProduct u => u
  | RemoveProduct u => u
  | SetQuantity u _ => u
  end.

(** A call that does not set a quantity above [b]. *)
Definition call_at_most (b : Z) (c : call) : Prop :=
  match c with
  | SetQuantity _ q => q <= b
  | _ => True
  end.

(** No stored quantity exceeds [b]. *)
Definition quantities_at_most (b : Z) (self : BaseOrder) : Prop :=
  map_Forall (fun _ q => q <= b) (productList self).

(** Every product of the order is a product of the catalog. *)
Definition in_catalog (catalog : gmap string products.Product) (self : BaseOrder) : Prop :=
  map_Forall (fun k _ => is_Some (catalog !! k)) (productList self).

(** Reading an amount back from its display string: the decimal digits, in
    order, with the sign of a leading ["-"]. *)
Definition digit_value (c : ascii) : option Z :=
  let n := N_of_ascii c in
  if decide (48 <= n <= 57)%N then Some (Z.of_N n - 48) else None.

Fixpoint digits_value (acc : Z) (s : string) : Z :=
  match s with
  | EmptyString => acc
  | String c s' =>
      digits_value
        (match digit_value c with Some d => 10 * acc + d | None => acc end) s'
  end.

Definition parse_cents (s : string) : Z :=
  match s with
  | String "-" _ => - digits_value 0 s
  | _ => digits_value 0 s
  end.

(** A response [initDiscountDatabase] asks again for: not empty, and
    starting with neither [y] nor [n], in either case. *)
Definition undecided (response : string) : Prop :=
  match first_lower response with
  | Some c => c <> "y"%char /\ c <> "n"%char
  | None => False
  end.

(** The row [addDiscountToDatabase] binds to its [INSERT]. *)
Definition discount_row (discountCode : string) (percentage dollarAmt : option Z)
    (freeShipping : option bool) (expiration : string) : list sqlite3.value :=
  [ sqlite3.Text discountCode;
    match percentage with Some z => sqlite3.Integer z | None => sqlite3.Null end;
    match dollarAmt with Some z => sqlite3.Integer z | None => sqlite3.Null end;
    sqlite3.adapt_bool freeShipping;
    sqlite3.Text expiration ].

(** The arguments [addDiscountToDatabase] accepts before it reaches the
    store. *)
Definition discount_args_valid (percentage dollarAmt : option Z)
    (freeShipping : option bool) : Prop :=
  count_set percentage dollarAmt freeShipping = 1%nat
  /\ (forall p, percentage = Some p -> 1 <= p <= 100)
  /\ (forall d, dollarAmt = Some d -> 1 <= d < 2 ^ 63).

(** The text stored in the [expirationDateTime] column. *)
Definition expiration_text {datetime : Type} (isoformat : datetime -> string)
    (expirationDate : option datetime) : string :=
  match expirationDate with
  | None => "NULL"
  | Some d => isoformat d
  end.

(** The store with [row] appended to its discounts table [t]. *)
Definition with_discount_row (db : sqlite3.database) (t : sqlite3.table)
    (row : list sqlite3.value) : sqlite3.database :=
  <["discounts" := {| sqlite3.columns := sqlite3.columns t;
                      sqlite3.rows := (sqlite3.rows t ++ [row])%list |}]> db.

(** The arguments of one call of [addDiscountToDatabase]. *)
Record discount_call (datetime : Type) : Type := {
  dc_code : string;
  dc_percentage : option Z;
  dc_dollarAmt : option Z;
  dc_freeShipping : option bool;
  dc_expirationDate : option datetime
}.
Arguments dc_code {datetime} d.
Arguments dc_percentage {datetime} d.
Arguments dc_dollarAmt {datetime} d.
Arguments dc_freeShipping {datetime} d.
Arguments dc_expirationDate {datetime} d.

(** The store after a sequence of calls, each caught if it raises. *)
Definition run_discount_calls {datetime : Type} (isoformat : datetime -> string)
    (cs : list (discount_call datetime)) (db : sqlite3.database) : sqlite3.database :=
  foldl (fun db c =>
           (addDiscountToDatabase datetime isoformat (dc_code c) (dc_percentage c)
              (dc_dollarAmt c) (dc_freeShipping c) (dc_expirationDate c) db).2)
        db cs.

(** * Theorems *)

(** ** Decimal printing *)

Section StrDigits.

Example str_zero : PyStr.str 0 = "0".
Proof. reflexivity. Qed.

Example str_ten_digits : PyStr.str 1234567890 = "1234567890".
Proof. vm_compute. reflexivity. Qed.

Example str_negative : PyStr.str (-42) = "-42".
Proof. vm_compute. reflexivity. Qed.

Lemma str_digits_fuel_irrel f1 : forall f2 n,
  0 <= n < 10 ^ Z.of_nat (S f1) -> n < 10 ^ Z.of_nat (S f2) ->
  PyStr.str_digits_fuel (S f1) n = PyStr.str_digits_fuel (S f2) n.
Proof.
  induction f1 as [|f1 IH]; intros f2 n Hn1 Hn2.
  - change (10 ^ Z.of_nat 1) with 10 in Hn1.
    cbn [PyStr.str_digits_fuel]. destruct (decide (n < 10)); [done | lia].
  - cbn [PyStr.str_digits_fuel]. destruct (decide (n < 10)) as [|Hge]; [done|].
    destruct f2 as [|f2].
    { change (10 ^ Z.of_nat 1) with 10 in Hn2. lia. }
    f_equal. apply IH.
    + split; [apply Z.div_pos; lia|].
      apply Z.div_lt_upper_bound; [lia|].
      rewrite (Nat2Z.inj_succ (S f1)), Z.pow_succ_r in Hn1 by lia. lia.
    + apply Z.div_lt_upper_bound; [lia|].
      rewrite (Nat2Z.inj_succ (S f2)), Z.pow_succ_r in Hn2 by lia. lia.
Qed.

Lemma lt_pow10_log2 n : 0 <= n -> n < 10 ^ Z.of_nat (S (Z.to_nat (Z.log2 n))).
Proof.
  intros Hn. rewrite Nat2Z.inj_succ, Z2Nat.id by apply Z.log2_nonneg.
  destruct (decide (n = 0)) as [->|Hnz].
  { apply Z.pow_pos_nonneg; [lia | simpl; lia]. }
  pose proof (Z.log2_spec n ltac:(lia)) as [_ Hlt].
  pose proof (Z.log2_nonneg n) as Hl.
  eapply Z.lt_le_trans; [exact Hlt|].
  apply Z.pow_le_mono_l. lia.
Qed.

(** The equation the fuel hides. *)
Lemma str_digits_unfold n :
  0 <= n ->
  PyStr.str_digits n =
    if decide (n < 10) then PyStr.digit n
    else PyStr.str_digits (n / 10) +:+ PyStr.digit (n mod 10).
Proof.
  intros Hn. unfold PyStr.str_digits at 1.
  cbn [PyStr.str_digits_fuel].
  destruct (decide (n < 10)) as [|Hge]; [done|].
  f_equal. unfold PyStr.str_digits.
  assert (Hq : 0 <= n / 10) by (apply Z.div_pos; lia).
  pose proof (Z.log2_le_mono 8 n ltac:(lia)) as H3.
  change (Z.log2 8) with 3 in H3.
  destruct (Z.to_nat (Z.log2 n)) as [|k] eqn:Hk; [lia|].
  apply str_digits_fuel_irrel; [|apply lt_pow10_log2; lia].
  split; [lia|].
  pose proof (lt_pow10_log2 (n / 10) Hq) as Hlt.
  eapply Z.lt_le_trans; [exact Hlt|].
  apply Z.pow_le_mono_r; [lia|].
  assert (Z.log2 (n / 10) < Z.log2 n); [|lia].
  assert (1 <= n / 10) by (apply Z.div_le_lower_bound; lia).
  apply Z.log2_lt_pow2; [lia|].
  pose proof (Z.log2_spec n ltac:(lia)) as [_ Hlt2].
  rewrite Z.pow_succ_r in Hlt2 by lia.
  apply Z.div_lt_upper_bound; lia.
Qed.

End StrDigits.

(** ** Slices of a concatenation *)

Section Slices.

Lemma string_app_cons x (a b : string) : String x a +:+ b = String x (a +:+ b).
Proof. reflexivity. Qed.

Lemma string_app_assoc (a b c : string) : (a +:+ b) +:+ c = a +:+ b +:+ c.
Proof.
  induction a as [|x a IH]; [done|]. rewrite !string_app_cons. by f_equal.
Qed.

Lemma string_length_app (a b : string) :
  String.length (a +:+ b) = (String.length a + String.length b)%nat.
Proof.
  induction a as [|x a IH]; [done|]. rewrite string_app_cons. simpl. by f_equal.
Qed.

Lemma take_length_app (a b : string) : PyStr.take (String.length a) (a +:+ b) = a.
Proof.
  induction a as [|x a IH]; [by destruct b|].
  rewrite string_app_cons. simpl. by f_equal.
Qed.

Lemma drop_length_app (a b : string) : PyStr.drop (String.length a) (a +:+ b) = b.
Proof.
  induction a as [|x a IH]; [done|]. rewrite string_app_cons. simpl. done.
Qed.

Lemma slice_to_neg_app k (a b : string) :
  String.length b = k -> PyStr.slice_to_neg k (a +:+ b) = a.
Proof.
  intros <-. unfold PyStr.slice_to_neg. rewrite string_length_app.
  replace (String.length a + String.length b - String.length b)%nat
    with (String.length a) by lia.
  apply take_length_app.
Qed.

Lemma slice_from_neg_app k (a b : string) :
  String.length b = k -> PyStr.slice_from_neg k (a +:+ b) = b.
Proof.
  intros <-. unfold PyStr.slice_from_neg. rewrite string_length_app.
  replace (String.length a + String.length b - String.length b)%nat
    with (String.length a) by lia.
  apply drop_length_app.
Qed.

(** A number of at least three digits splits into its hundreds and its last
    two digits. *)
Lemma str_digits_hundreds n :
  100 <= n ->
  PyStr.str_digits n =
    PyStr.str_digits (n / 100)
    +:+ (PyStr.digit (n / 10 mod 10) +:+ PyStr.digit (n mod 10)).
Proof.
  intros Hn.
  assert (10 <= n / 10) by (apply Z.div_le_lower_bound; lia).
  rewrite (str_digits_unfold n) by lia.
  destruct (decide (n < 10)); [lia|].
  rewrite (str_digits_unfold (n / 10)) by lia.
  destruct (decide (n / 10 < 10)); [lia|].
  rewrite Z.div_div by lia. change (10 * 10) with 100.
  apply string_app_assoc.
Qed.

Lemma zfill2_str m :
  0 <= m < 100 ->
  zfill 2 (PyStr.str m) = PyStr.digit (m / 10) +:+ PyStr.digit (m mod 10).
Proof.
  intros Hm. unfold PyStr.str. destruct (decide (m < 0)); [lia|].
  rewrite str_digits_unfold by lia. destruct (decide (m < 10)) as [Hlt|Hge].
  - rewrite Z.div_small, Z.mod_small by lia. reflexivity.
  - assert (0 <= m / 10 < 10).
    { split; [apply Z.div_pos; lia | apply Z.div_lt_upper_bound; lia]. }
    rewrite (str_digits_unfold (m / 10)) by lia.
    destruct (decide (m / 10 < 10)); [|lia]. reflexivity.
Qed.

End Slices.

(** ** [formatCentsToDollars] *)

(** The formatter on a non-negative amount, before the sign is put back. *)
Lemma format_magnitude n :
  0 <= n ->
  (if decide (n < 10) then "$0.0" +:+ PyStr.str_digits n
   else if decide (n < 100) then "$0." +:+ PyStr.str_digits n
   else "$" +:+ PyStr.slice_to_neg 2 (PyStr.str_digits n)
        +:+ "." +:+ PyStr.slice_from_neg 2 (PyStr.str_digits n))
  = "$" +:+ PyStr.str (n / 100) +:+ "." +:+ zfill 2 (PyStr.str (n mod 100)).
Proof.
  intros Hn.
  assert (Hm : 0 <= n mod 100 < 100) by (apply Z.mod_pos_bound; lia).
  rewrite zfill2_str by done.
  assert (Hd : 0 <= n / 100) by (apply Z.div_pos; lia).
  unfold PyStr.str at 1. destruct (decide (n / 100 < 0)); [lia|].
  destruct (decide (n < 10)) as [H10|H10].
  - rewrite Z.div_small, Z.mod_small by lia.
    rewrite (str_digits_unfold n), (Z.div_small n 10), (Z.mod_small n 10) by lia.
    destruct (decide (n < 10)); [|lia]. reflexivity.
  - destruct (decide (n < 100)) as [H100|H100].
    + rewrite (Z.div_small n 100), (Z.mod_small n 100) by lia.
      rewrite (str_digits_unfold n) by lia. destruct (decide (n < 10)); [lia|].
      assert (0 <= n / 10 < 10).
      { split; [apply Z.div_pos; lia | apply Z.div_lt_upper_bound; lia]. }
      rewrite (str_digits_unfold (n / 10)) by lia.
      destruct (decide (n / 10 < 10)); [|lia]. reflexivity.
    + rewrite str_digits_hundreds by lia.
      rewrite slice_to_neg_app, slice_from_neg_app by reflexivity.
      replace (n mod 100 / 10) with (n / 10 mod 10)
        by (Z.to_euclidean_division_equations; lia).
      replace (n mod 100 mod 10) with (n mod 10)
        by (Z.to_euclidean_division_equations; lia).
      reflexivity.
Qed.

Lemma str_nonneg n : 0 <= n -> PyStr.str n = PyStr.str_digits n.
Proof. intros Hn. unfold PyStr.str. destruct (decide (n < 0)); [lia | done]. Qed.

(** [str(cents)[1:]] drops the sign of a negative amount. *)
Lemma drop_sign_str n : n < 0 -> PyStr.drop 1 (PyStr.str n) = PyStr.str_digits (Z.abs n).
Proof.
  intros Hn. unfold PyStr.str. destruct (decide (n < 0)); [|lia].
  replace (Z.abs n) with (- n) by lia. reflexivity.
Qed.

(** C8: for every integer amount of cents, [formatCentsToDollars] returns
    an optional leading ["-"] (exactly when the amount is negative), then
    ["$"], the dollar part in decimal, ["."] and the cents part padded with
    zeros to two digits; and 5, 105 and -5 format as ["$0.05"], ["$1.05"]
    and ["-$0.05"]. *)
Theorem formatCentsToDollars_dollars_and_cents :
  (forall cents : Z, formatCentsToDollars cents = dollars_and_cents cents)
  /\ formatCentsToDollars 5 = "$0.05"
  /\ formatCentsToDollars 105 = "$1.05"
  /\ formatCentsToDollars (-5) = "-$0.05".
Proof.
  split; [|by vm_compute].
  intros cents. unfold formatCentsToDollars, dollars_and_cents.
  destruct (decide (cents < 0)) as [Hneg|Hpos].
  - rewrite drop_sign_str by done. cbn [negb].
    f_equal. apply format_magnitude. lia.
  - rewrite (str_nonneg cents) by lia. cbn [negb]. rewrite Z.abs_eq by lia.
    change ("" +:+ ?s) with s. apply format_magnitude. lia.
Qed.

(** ** The three mutators, step by step *)

Section OrderSteps.
Variable catalog : gmap string products.Product.
Implicit Types (self : BaseOrder) (p : string) (q : Z).

Lemma with_productList_id self : with_productList self (productList self) = self.
Proof. by destruct self. Qed.

Lemma productExists_true p :
  products.productExists catalog p = true <-> is_Some (catalog !! p).
Proof. unfold products.productExists. apply bool_decide_eq_true. Qed.

Lemma productExists_false p :
  products.productExists catalog p = false <-> catalog !! p = None.
Proof.
  unfold products.productExists. rewrite bool_decide_eq_false.
  by rewrite eq_None_not_Some.
Qed.

(** What [addProduct] does to the order for a product of the catalog. *)
Lemma addProduct_exists self p :
  products.productExists catalog p = true ->
  addProduct catalog p self =
    (Ok tt,
     match productList self !! p with
     | None => with_productList self (<[p:=1]> (productList self))
     | Some q =>
         if decide (q <= MAX_QUANTITY)
         then with_productList self (<[p:=q + 1]> (productList self))
         else self
     end).
Proof.
  intros Hex. unfold addProduct. rewrite Hex. cbn [negb].
  unfold mbind, M_bind, dict_get. destruct (productList self !! p) as [q|] eqn:Hq.
  - destruct (decide (q <= MAX_QUANTITY)); [|done].
    unfold dict_iadd, mbind, M_bind, dict_getitem. by rewrite Hq.
  - done.
Qed.

(** What [removeProduct] does to the order for a product of the catalog. *)
Lemma removeProduct_exists self p :
  products.productExists catalog p = true ->
  removeProduct catalog p self =
    (Ok tt,
     match productList self !! p with
     | None => self
     | Some q =>
         if decide (q = 1)
         then with_productList self (delete p (productList self))
         else with_productList self (<[p:=q + -1]> (productList self))
     end).
Proof.
  intros Hex. unfold removeProduct. rewrite Hex. cbn [negb].
  unfold mbind, M_bind, dict_get. destruct (productList self !! p) as [q|] eqn:Hq.
  - destruct (decide (Some q = Some 1)) as [[= ->]|Hne].
    + unfold dict_pop. rewrite Hq. by destruct (decide (1 = 1)).
    + destruct (decide (Some q = None)); [done|].
      destruct (decide (q = 1)) as [->|]; [done|].
      unfold dict_iadd, mbind, M_bind, dict_getitem. by rewrite Hq.
  - destruct (decide (None = Some 1)); [done|].
    by destruct (decide (@None Z = None)).
Qed.

(** What [setQuantity] does for a product of the catalog: the value it
    returns or the exception it raises, and the order it leaves. *)
Lemma setQuantity_exists self p q :
  products.productExists catalog p = true ->
  setQuantity catalog p q self =
    match productList self !! p with
    | None =>
        if decide (q = 0) then (Raise (KeyError p), self)
        else (Ok tt, with_productList self (<[p:=q]> (productList self)))
    | Some v =>
        if decide (q = 0)
        then (Ok tt, with_productList self (delete p (productList self)))
        else if decide (q <= MAX_QUANTITY) then
          if decide (v = 0) then (Ok tt, self)
          else (Ok tt, with_productList self (<[p:=q]> (productList self)))
        else (Ok tt, self)
    end.
Proof.
  intros Hex. unfold setQuantity. rewrite Hex. cbn [negb].
  destruct (decide (q = 0)) as [->|Hq].
  - unfold mbind, M_bind, dict_pop. by destruct (productList self !! p).
  - unfold mbind, M_bind, dict_contains, dict_get.
    destruct (productList self !! p) as [v|] eqn:Hv.
    + cbn [negb].
      destruct (decide (q <= MAX_QUANTITY)); [|done].
      cbv beta. rewrite Hv. unfold truthy.
      destruct (decide (v = 0)) as [->|Hv0].
      * by rewrite bool_decide_eq_true_2.
      * by rewrite bool_decide_eq_false_2.
    + done.
Qed.

(** The guard shared by the three mutators. *)
Lemma mutators_not_found self p q :
  products.productExists catalog p = false ->
  addProduct catalog p self = (Raise ProductNotFoundError, self)
  /\ removeProduct catalog p self = (Raise ProductNotFoundError, self)
  /\ setQuantity catalog p q self = (Raise ProductNotFoundError, self).
Proof.
  intros Hex. unfold addProduct, removeProduct, setQuantity. by rewrite Hex.
Qed.

End OrderSteps.

(** ** Products the catalog does not know *)

(** C9: for every order and every product identifier absent from the
    catalog, [addProduct], [removeProduct] and [setQuantity] each raise
    [ProductNotFoundError] and leave the order, its product list and its
    identifier, exactly as it was. *)
Theorem unknown_product_rejected_unchanged
    (catalog : gmap string products.Product) (self : BaseOrder) (p : string) (q : Z) :
  products.productExists catalog p = false ->
  addProduct catalog p self = (Raise ProductNotFoundError, self)
  /\ removeProduct catalog p self = (Raise ProductNotFoundError, self)
  /\ setQuantity catalog p q self = (Raise ProductNotFoundError, self).
Proof.
  intros Hex. unfold addProduct, removeProduct, setQuantity.
  rewrite Hex. cbn [negb]. unfold raise. repeat split.
Qed.

Lemma unknown_product_rejected_unchanged_witness :
  let self := with_productList (BaseOrder_init 7%N) {[ "A" := 2 ]} in
  products.productExists demo_catalog "Z" = false
  /\ addProduct demo_catalog "Z" self = (Raise ProductNotFoundError, self)
  /\ removeProduct demo_catalog "Z" self = (Raise ProductNotFoundError, self)
  /\ setQuantity demo_catalog "Z" 4 self = (Raise ProductNotFoundError, self).
Proof.
  intros self. split; [vm_compute; reflexivity|].
  apply (unknown_product_rejected_unchanged demo_catalog self "Z" 4).
  vm_compute; reflexivity.
Defined.

(** ** Setting a quantity *)

(** C5: for every order and every product of the catalog,
    [setQuantity(p, 0)] removes the entry of [p] when there is one, and
    raises [KeyError] leaving the order unchanged when there is none,
    whereas [removeProduct(p)] on an order without [p] returns normally and
    changes nothing. *)
Theorem setQuantity_zero_removes_or_raises
    (catalog : gmap string products.Product) (self : BaseOrder) (p : string) :
  products.productExists catalog p = true ->
  (is_Some (productList self !! p) ->
     setQuantity catalog p 0 self =
       (Ok tt, with_productList self (delete p (productList self))))
  /\ (productList self !! p = None ->
        setQuantity catalog p 0 self = (Raise (KeyError p), self)
        /\ removeProduct catalog p self = (Ok tt, self)).
Proof.
  intros Hex. rewrite setQuantity_exists, removeProduct_exists by done.
  split.
  - intros [v ->]. by destruct (decide (0 = 0)).
  - intros ->. by destruct (decide (0 = 0)).
Qed.

Lemma setQuantity_zero_removes_or_raises_witness :
  let self := with_productList (BaseOrder_init 7%N) {[ "A" := 2 ]} in
  products.productExists demo_catalog "A" = true
  /\ products.productExists demo_catalog "B" = true
  /\ productList (setQuantity demo_catalog "A" 0 self).2 = ∅
  /\ setQuantity demo_catalog "B" 0 self = (Raise (KeyError "B"), self)
  /\ removeProduct demo_catalog "B" self = (Ok tt, self).
Proof.
  intros self.
  assert (HA : products.productExists demo_catalog "A" = true)
    by (vm_compute; reflexivity).
  assert (HB : products.productExists demo_catalog "B" = true)
    by (vm_compute; reflexivity).
  split; [exact HA|]. split; [exact HB|].
  destruct (setQuantity_zero_removes_or_raises demo_catalog self "A" HA) as [Hrm _].
  destruct (setQuantity_zero_removes_or_raises demo_catalog self "B" HB) as [_ Hno].
  split.
  - rewrite Hrm; [vm_compute; reflexivity|]. exists 2. vm_compute; reflexivity.
  - apply Hno. vm_compute; reflexivity.
Defined.

(** C6, as the code has it: for every order, every product [p] of the
    catalog and every [q <> 0], [setQuantity(p, q)] inserts [p] with
    quantity [q], whatever [q] is, when [p] is absent; overwrites the entry
    with [q] when [p] is present with a non-zero stored quantity and
    [q <= MAX_QUANTITY]; and leaves the order unchanged when [p] is present
    and [q > MAX_QUANTITY]. *)
Theorem setQuantity_nonzero
    (catalog : gmap string products.Product) (self : BaseOrder) (p : string) (q : Z) :
  products.productExists catalog p = true ->
  q <> 0 ->
  (productList self !! p = None ->
     setQuantity catalog p q self =
       (Ok tt, with_productList self (<[p:=q]> (productList self))))
  /\ (forall v, productList self !! p = Some v -> v <> 0 -> q <= MAX_QUANTITY ->
        setQuantity catalog p q self =
          (Ok tt, with_productList self (<[p:=q]> (productList self))))
  /\ (is_Some (productList self !! p) -> q > MAX_QUANTITY ->
        setQuantity catalog p q self = (Ok tt, self)).
Proof.
  intros Hex Hq. rewrite setQuantity_exists by done.
  split; [|split].
  - intros ->. by destruct (decide (q = 0)).
  - intros v -> Hv Hle. destruct (decide (q = 0)); [done|].
    destruct (decide (q <= MAX_QUANTITY)); [|done].
    by destruct (decide (v = 0)).
  - intros [v ->] Hgt. destruct (decide (q = 0)); [done|].
    destruct (decide (q <= MAX_QUANTITY)); [lia | done].
Qed.

Lemma setQuantity_nonzero_witness :
  let self := with_productList (BaseOrder_init 7%N) {[ "A" := 2 ]} in
  products.productExists demo_catalog "A" = true
  /\ products.productExists demo_catalog "B" = true
  /\ productList (setQuantity demo_catalog "B" 99 self).2 = {[ "A" := 2; "B" := 99 ]}
  /\ productList (setQuantity demo_catalog "A" 25 self).2 = {[ "A" := 25 ]}
  /\ setQuantity demo_catalog "A" 26 self = (Ok tt, self).
Proof.
  intros self.
  assert (HA : products.productExists demo_catalog "A" = true)
    by (vm_compute; reflexivity).
  assert (HB : products.productExists demo_catalog "B" = true)
    by (vm_compute; reflexivity).
  split; [exact HA|]. split; [exact HB|].
  destruct (setQuantity_nonzero demo_catalog self "B" 99 HB ltac:(lia)) as [Hins _].
  destruct (setQuantity_nonzero demo_catalog self "A" 25 HA ltac:(lia)) as (_ & Hset & _).
  destruct (setQuantity_nonzero demo_catalog self "A" 26 HA ltac:(lia)) as (_ & _ & Hcap).
  split; [|split].
  - rewrite Hins; vm_compute; reflexivity.
  - rewrite (Hset 2); [vm_compute; reflexivity | vm_compute; reflexivity | lia
                      | unfold MAX_QUANTITY; lia].
  - apply Hcap; [exists 2; vm_compute; reflexivity | unfold MAX_QUANTITY; lia].
Defined.

(** The order [{A: 0}], reached through the mutators alone. *)
Lemma zero_quantity_reachable :
  productList
    (run_calls demo_catalog [SetQuantity "A" (-1); AddProduct "A"] (BaseOrder_init 7%N))
  = {[ "A" := 0 ]}.
Proof. vm_compute. reflexivity. Qed.

(** C6 as stated fails on the order [{A: 0}]: [A] is present and
    [5 <= MAX_QUANTITY], yet [setQuantity(A, 5)] does not overwrite the
    entry. *)
Lemma setQuantity_zero_entry_not_overwritten :
  let self :=
    run_calls demo_catalog [SetQuantity "A" (-1); AddProduct "A"] (BaseOrder_init 7%N) in
  products.productExists demo_catalog "A" = true
  /\ is_Some (productList self !! "A")
  /\ 5 <> 0 /\ 5 <= MAX_QUANTITY
  /\ productList (setQuantity demo_catalog "A" 5 self).2 !! "A" = Some 0
  /\ productList (setQuantity demo_catalog "A" 5 self).2 !! "A" <> Some 5.
Proof.
  intros self. split; [vm_compute; reflexivity|].
  split; [exists 0; vm_compute; reflexivity|].
  split; [lia|]. split; [unfold MAX_QUANTITY; lia|].
  assert (H : productList (setQuantity demo_catalog "A" 5 self).2 !! "A" = Some 0)
    by (vm_compute; reflexivity).
  split; [exact H|]. rewrite H. discriminate.
Qed.

(** ** Adding and removing *)

(** C10, as the code has it: for every order and every product [p] of the
    catalog that is absent from the order, or present with a non-zero
    quantity of at most [MAX_QUANTITY], [addProduct(p)] followed by
    [removeProduct(p)] gives back the order it started from. *)
Theorem addProduct_then_removeProduct
    (catalog : gmap string products.Product) (self : BaseOrder) (p : string) :
  products.productExists catalog p = true ->
  (forall v, productList self !! p = Some v -> v <> 0 /\ v <= MAX_QUANTITY) ->
  (addProduct catalog p self).1 = Ok tt
  /\ removeProduct catalog p (addProduct catalog p self).2 = (Ok tt, self).
Proof.
  intros Hex Hv. rewrite addProduct_exists by done. split; [reflexivity|].
  cbn [snd]. rewrite removeProduct_exists by done.
  destruct (productList self !! p) as [v|] eqn:Hp.
  - destruct (Hv v eq_refl) as [Hv0 Hle].
    destruct (decide (v <= MAX_QUANTITY)); [|lia].
    cbn [with_productList productList orderID]. rewrite lookup_insert_eq.
    destruct (decide (v + 1 = 1)); [lia|].
    rewrite insert_insert_eq. replace (v + 1 + -1) with v by lia.
    rewrite (insert_id _ p v) by done. f_equal. by destruct self.
  - cbn [with_productList productList orderID]. rewrite lookup_insert_eq.
    destruct (decide (1 = 1)); [|done].
    rewrite delete_insert_id by done. f_equal. by destruct self.
Qed.

Lemma addProduct_then_removeProduct_witness :
  let self := with_productList (BaseOrder_init 7%N) {[ "A" := 25 ]} in
  products.productExists demo_catalog "A" = true
  /\ products.productExists demo_catalog "B" = true
  /\ removeProduct demo_catalog "A" (addProduct demo_catalog "A" self).2 = (Ok tt, self)
  /\ removeProduct demo_catalog "B" (addProduct demo_catalog "B" self).2 = (Ok tt, self).
Proof.
  intros self.
  assert (HA : products.productExists demo_catalog "A" = true)
    by (vm_compute; reflexivity).
  assert (HB : products.productExists demo_catalog "B" = true)
    by (vm_compute; reflexivity).
  split; [exact HA|]. split; [exact HB|]. split.
  - apply (addProduct_then_removeProduct demo_catalog self "A" HA).
    intros v Hv. assert (v = 25) as -> by (vm_compute in Hv; congruence).
    unfold MAX_QUANTITY. lia.
  - apply (addProduct_then_removeProduct demo_catalog self "B" HB).
    intros v Hv. vm_compute in Hv. discriminate.
Defined.

(** C10 as stated fails on the order [{A: 0}], whose quantity for [A] is at
    most [MAX_QUANTITY]: [addProduct(A)] makes it 1 and [removeProduct(A)]
    then deletes the entry. *)
Lemma addProduct_then_removeProduct_zero_entry :
  let self :=
    run_calls demo_catalog [SetQuantity "A" (-1); AddProduct "A"] (BaseOrder_init 7%N) in
  products.productExists demo_catalog "A" = true
  /\ productList self !! "A" = Some 0
  /\ 0 <= MAX_QUANTITY
  /\ productList (removeProduct demo_catalog "A" (addProduct demo_catalog "A" self).2).2
     = ∅
  /\ productList (removeProduct demo_catalog "A" (addProduct demo_catalog "A" self).2).2
     <> productList self.
Proof.
  intros self. split; [vm_compute; reflexivity|].
  split; [vm_compute; reflexivity|]. split; [unfold MAX_QUANTITY; lia|].
  assert (H : productList
                (removeProduct demo_catalog "A" (addProduct demo_catalog "A" self).2).2
              = ∅) by (vm_compute; reflexivity).
  split; [exact H|]. rewrite H. intros Heq.
  assert (Hl : productList self !! "A" = Some 0) by (vm_compute; reflexivity).
  rewrite <- Heq in Hl. rewrite lookup_empty in Hl. discriminate.
Qed.

(** The quantity of [p] after [n] calls of [addProduct(p)] on an order that
    does not hold [p]. *)
Lemma addProduct_repeat_lookup
    (catalog : gmap string products.Product) (self : BaseOrder) (p : string) (n : nat) :
  products.productExists catalog p = true ->
  productList self !! p = None ->
  productList (run_calls catalog (replicate n (AddProduct p)) self) !! p =
    match n with
    | O => None
    | S _ => Some (Z.min (Z.of_nat n) (MAX_QUANTITY + 1))
    end.
Proof.
  intros Hex Hp. induction n as [|n IH]; [done|].
  rewrite replicate_S_end. unfold run_calls in *. rewrite foldl_app.
  cbn [foldl run_call]. rewrite addProduct_exists by done. cbn [snd].
  rewrite IH. unfold MAX_QUANTITY. destruct n as [|n].
  - cbn [with_productList productList]. by rewrite lookup_insert_eq.
  - destruct (decide (Z.min (Z.of_nat (S n)) (25 + 1) <= 25)) as [Hle|Hgt].
    + cbn [with_productList productList]. rewrite lookup_insert_eq. f_equal. lia.
    + rewrite IH. f_equal. unfold MAX_QUANTITY. lia.
Qed.

(** C1, on the code: for every product [p] of the catalog, [n >= 1]
    successive calls of [addProduct(p)] on an empty order leave [p] with
    quantity [min(n, MAX_QUANTITY + 1)]; the cap the code enforces is 26,
    not [MAX_QUANTITY]. *)
Theorem addProduct_repeat_from_empty
    (catalog : gmap string products.Product) (uuid : UUID) (p : string) (n : nat) :
  products.productExists catalog p = true ->
  (1 <= n)%nat ->
  productList (run_calls catalog (replicate n (AddProduct p)) (BaseOrder_init uuid)) !! p
  = Some (Z.min (Z.of_nat n) (MAX_QUANTITY + 1)).
Proof.
  intros Hex Hn. rewrite addProduct_repeat_lookup by done.
  destruct n; [lia | done].
Qed.

Lemma addProduct_repeat_from_empty_witness :
  products.productExists demo_catalog "A" = true
  /\ (1 <= 26)%nat
  /\ productList
       (run_calls demo_catalog (replicate 26 (AddProduct "A")) (BaseOrder_init 7%N)) !! "A"
     = Some 26
  /\ 26 > MAX_QUANTITY.
Proof.
  assert (HA : products.productExists demo_catalog "A" = true)
    by (vm_compute; reflexivity).
  split; [exact HA|]. split; [lia|]. split.
  - exact (addProduct_repeat_from_empty demo_catalog 7%N "A" 26 HA ltac:(lia)).
  - unfold MAX_QUANTITY. lia.
Defined.

(** ** Positive quantities *)

Section PositiveQuantities.
Variable catalog : gmap string products.Product.

Lemma positive_with_insert self p q :
  0 < q -> positive_quantities self ->
  positive_quantities (with_productList self (<[p:=q]> (productList self))).
Proof. intros Hq Hpos. by apply map_Forall_insert_2. Qed.

Lemma positive_with_delete self p :
  positive_quantities self ->
  positive_quantities (with_productList self (delete p (productList self))).
Proof. intros Hpos. by apply map_Forall_delete. Qed.

(** A mutator that is not asked for a negative quantity keeps every
    stored quantity positive, whether it returns or raises. *)
Lemma run_call_positive c self :
  nonneg_call c -> positive_quantities self ->
  positive_quantities (run_call catalog c self).2.
Proof.
  intros Hc Hpos.
  destruct c as [p|p|p q]; cbn [run_call];
    destruct (products.productExists catalog p) eqn:Hex.
  2:{ by destruct (mutators_not_found catalog self p 0 Hex) as (-> & _). }
  3:{ by destruct (mutators_not_found catalog self p 0 Hex) as (_ & -> & _). }
  4:{ by destruct (mutators_not_found catalog self p q Hex) as (_ & _ & ->). }
  - rewrite addProduct_exists by done. cbn [snd].
    destruct (productList self !! p) as [v|] eqn:Hv.
    + pose proof (map_Forall_lookup_1 _ _ _ _ Hpos Hv) as Hv0. cbn beta in Hv0.
      destruct (decide (v <= MAX_QUANTITY)); [|done].
      apply positive_with_insert; [lia | done].
    + by apply positive_with_insert.
  - rewrite removeProduct_exists by done. cbn [snd].
    destruct (productList self !! p) as [v|] eqn:Hv; [|done].
    pose proof (map_Forall_lookup_1 _ _ _ _ Hpos Hv) as Hv0. cbn beta in Hv0.
    destruct (decide (v = 1)).
    + by apply positive_with_delete.
    + apply positive_with_insert; [lia | done].
  - rewrite setQuantity_exists by done. cbn [nonneg_call] in Hc.
    destruct (productList self !! p) as [v|] eqn:Hv.
    + destruct (decide (q = 0)); [by apply positive_with_delete|].
      destruct (decide (q <= MAX_QUANTITY)); [|done].
      destruct (decide (v = 0)); [done|].
      apply positive_with_insert; [lia | done].
    + destruct (decide (q = 0)); [done|].
      apply positive_with_insert; [lia | done].
Qed.

Lemma run_calls_positive cs : forall self,
  Forall nonneg_call cs -> positive_quantities self ->
  positive_quantities (run_calls catalog cs self).
Proof.
  induction cs as [|c cs IH]; intros self Hcs Hpos; [done|].
  inversion Hcs as [|? ? Hc Hcs']; subst.
  unfold run_calls. cbn [foldl]. apply IH; [done|].
  by apply run_call_positive.
Qed.

Lemma randint_1_5_positive r : 0 < random.randint r 1 5.
Proof.
  unfold random.randint.
  pose proof (Z.mod_pos_bound (Z.of_nat r) (5 - 1 + 1) ltac:(lia)). lia.
Qed.

Lemma RandomOrder_fill_positive allProducts rnd iters : forall d d',
  map_Forall (fun _ q => 0 < q) d ->
  RandomOrder_fill allProducts rnd iters d = Ok d' ->
  map_Forall (fun _ q => 0 < q) d'.
Proof.
  induction iters as [|i iters IH]; intros d d' Hd Hfill; cbn in Hfill.
  - by injection Hfill as <-.
  - destruct (random.choice _ allProducts) as [k|e]; [|done].
    eapply IH; [|exact Hfill].
    apply map_Forall_insert_2; [apply randint_1_5_positive | done].
Qed.

(** The constructors give positive quantities when the mapping passed to
    [Order] has no negative one. *)
Lemma constructed_positive self :
  constructed catalog (fun q => 0 <= q) self -> positive_quantities self.
Proof.
  intros [uuid|uuid|uuid d Hd|uuid rnd n o Hinit].
  - apply map_Forall_empty.
  - apply map_Forall_empty.
  - unfold Order_init. destruct (decide (d = ∅)); [apply map_Forall_empty|].
    unfold positive_quantities. cbn [with_productList productList].
    intros k q [Hk [Hq _]]%map_lookup_filter_Some. cbn in Hq.
    pose proof (map_Forall_lookup_1 _ _ _ _ Hd Hk) as H0. cbn beta in H0. lia.
  - unfold RandomOrder_init in Hinit.
    destruct (RandomOrder_fill _ _ _ _) as [d|e] eqn:Hfill; [|done].
    injection Hinit as <-.
    eapply RandomOrder_fill_positive; [|exact Hfill]. apply map_Forall_empty.
Qed.

End PositiveQuantities.

(** C3, as the code has it: for every order produced by a constructor,
    the mapping given to [Order] holding no negative quantity, and every
    sequence of [addProduct], [removeProduct] and [setQuantity] calls none
    of which sets a negative quantity, every entry stored in [productList]
    has a strictly positive quantity. *)
Theorem quantities_stay_positive
    (catalog : gmap string products.Product) (self : BaseOrder) (cs : list call) :
  constructed catalog (fun q => 0 <= q) self ->
  Forall nonneg_call cs ->
  positive_quantities (run_calls catalog cs self).
Proof.
  intros Hself Hcs. apply run_calls_positive; [done|].
  exact (constructed_positive catalog self Hself).
Qed.

Lemma quantities_stay_positive_witness :
  let self := Order_init demo_catalog 7%N (Some {[ "A" := 2; "B" := 0; "Z" := 4 ]}) in
  let cs := [AddProduct "B"; SetQuantity "A" 0; RemoveProduct "B"; SetQuantity "B" 30] in
  constructed demo_catalog (fun q => 0 <= q) self
  /\ Forall nonneg_call cs
  /\ positive_quantities (run_calls demo_catalog cs self).
Proof.
  intros self cs.
  assert (Hself : constructed demo_catalog (fun q => 0 <= q) self).
  { apply constructed_Order. intros k q Hk.
    apply lookup_insert_Some in Hk as [[_ <-]|[_ Hk]]; [lia|].
    apply lookup_insert_Some in Hk as [[_ <-]|[_ Hk]]; [lia|].
    apply lookup_singleton_Some in Hk as [_ <-]. lia. }
  assert (Hcs : Forall nonneg_call cs).
  { repeat constructor; cbn; lia. }
  split; [exact Hself|]. split; [exact Hcs|].
  exact (quantities_stay_positive demo_catalog self cs Hself Hcs).
Defined.

(** C3 as stated fails: [setQuantity] stores a negative quantity for a
    product the order does not hold yet, and [Order] keeps a negative
    quantity of the mapping it is given. *)
Lemma negative_quantity_stored :
  constructed demo_catalog (fun _ => True) (BaseOrder_init 7%N)
  /\ productList
       (run_calls demo_catalog [SetQuantity "A" (-1)] (BaseOrder_init 7%N)) !! "A"
     = Some (-1)
  /\ ~ positive_quantities
       (run_calls demo_catalog [SetQuantity "A" (-1)] (BaseOrder_init 7%N))
  /\ constructed demo_catalog (fun _ => True)
       (Order_init demo_catalog 7%N (Some {[ "A" := -3 ]}))
  /\ ~ positive_quantities (Order_init demo_catalog 7%N (Some {[ "A" := -3 ]})).
Proof.
  assert (H1 : productList
                 (run_calls demo_catalog [SetQuantity "A" (-1)] (BaseOrder_init 7%N))
                 !! "A" = Some (-1)) by (vm_compute; reflexivity).
  assert (H2 : productList (Order_init demo_catalog 7%N (Some {[ "A" := -3 ]}))
                 !! "A" = Some (-3)) by (vm_compute; reflexivity).
  split; [constructor|]. split; [exact H1|]. split.
  { intros Hpos. pose proof (map_Forall_lookup_1 _ _ _ _ Hpos H1) as H. cbn in H. lia. }
  split; [by constructor|].
  intros Hpos. pose proof (map_Forall_lookup_1 _ _ _ _ Hpos H2) as H. cbn in H. lia.
Qed.

(** ** The total price *)

Section TotalPrice.
Variable catalog : gmap string products.Product.

Lemma foldl_add_foldr (l : list Z) : forall a, foldl Z.add a l = a + foldr Z.add 0 l.
Proof.
  induction l as [|x l IH]; intros a; cbn [foldl foldr]; [lia|].
  rewrite IH. lia.
Qed.

Lemma foldr_add_app (l1 l2 : list Z) :
  foldr Z.add 0 (l1 ++ l2)%list = foldr Z.add 0 l1 + foldr Z.add 0 l2.
Proof. induction l1 as [|x l1 IH]; cbn [foldr app]; lia. Qed.

(** The loop of [totalPrice] never raises; it collects one price per entry
    the catalog knows and prints once per entry it does not know. *)
Lemma totalPrice_loop items : forall prices out,
  exists prices' out',
    foldl (totalPrice_step catalog) (Ok prices, out) items = (Ok prices', out')
    /\ foldr Z.add 0 prices' =
         foldr Z.add 0 prices
         + foldr (fun item acc => entry_price catalog item + acc) 0 items
    /\ out' = (out ++ replicate
                 (length (filter (fun item => catalog !! item.1 = None) items))
                 diagnostic)%list.
Proof.
  induction items as [|[k q] items IH]; intros prices out.
  - exists prices, out. cbn. split; [done|]. split; [lia|].
    by rewrite app_nil_r.
  - cbn [foldl]. unfold totalPrice_step at 2, products.getProductByUUID.
    cbn [fst snd]. rewrite filter_cons. cbn [fst].
    cbn [foldr]. unfold entry_price at 1. cbn [fst snd].
    destruct (catalog !! k) as [p|] eqn:Hk.
    + destruct (IH (prices ++ [products.price p * q])%list out)
        as (prices' & out' & Hrun & Hsum & Hout).
      exists prices', out'. split; [exact Hrun|]. split.
      * rewrite Hsum, foldr_add_app. cbn [foldr]. lia.
      * rewrite Hout. by destruct (decide (Some p = None)).
    + destruct (IH prices (out ++ [diagnostic])%list)
        as (prices' & out' & Hrun & Hsum & Hout).
      exists prices', out'. split; [exact Hrun|]. split.
      * rewrite Hsum. lia.
      * rewrite Hout. destruct (decide (@None products.Product = None)); [|done].
        cbn [length replicate]. by rewrite <- app_assoc.
Qed.

Lemma totalPrice_value_and_output self :
  totalPrice catalog self =
    (Ok (catalog_total catalog (productList self)),
     replicate (length (orphans catalog (productList self))) diagnostic).
Proof.
  unfold totalPrice.
  destruct (totalPrice_loop (map_to_list (productList self)) [] [])
    as (prices' & out' & -> & Hsum & ->).
  unfold sum. rewrite foldl_add_foldr, Hsum. cbn [foldr app].
  rewrite !Z.add_0_l. reflexivity.
Qed.

Lemma foldr_entry_price_perm (l1 l2 : list (string * Z)) :
  l1 ≡ₚ l2 ->
  foldr (fun item acc => entry_price catalog item + acc) 0 l1
  = foldr (fun item acc => entry_price catalog item + acc) 0 l2.
Proof.
  induction 1 as [|x l1 l2 _ IH|x y l|l1 l2 l3 _ IH1 _ IH2]; cbn [foldr];
    [done | lia | lia | congruence].
Qed.

Lemma catalog_total_empty : catalog_total catalog ∅ = 0.
Proof. unfold catalog_total. by rewrite map_to_list_empty. Qed.

(** A further entry adds its own price to the total. *)
Lemma catalog_total_insert (d : gmap string Z) k q :
  d !! k = None ->
  catalog_total catalog (<[k:=q]> d)
  = entry_price catalog (k, q) + catalog_total catalog d.
Proof.
  intros Hk. unfold catalog_total.
  by rewrite (foldr_entry_price_perm _ _ (map_to_list_insert d k q Hk)).
Qed.

End TotalPrice.

(** C7: for every catalog and every order, [totalPrice] returns, without
    raising, the sum over the entries of [productList] of the catalog's
    unit price times the quantity, an entry whose product the catalog does
    not know adding nothing and printing one diagnostic; and the order
    [{A: 2, B: 1}], with [A] at 150 cents and [B] at 300 cents, totals 600. *)
Theorem totalPrice_is_catalog_sum :
  (forall (catalog : gmap string products.Product) (self : BaseOrder),
     totalPrice catalog self =
       (Ok (catalog_total catalog (productList self)),
        replicate (length (orphans catalog (productList self))) diagnostic))
  /\ (forall (catalog : gmap string products.Product) (d : gmap string Z) k q,
        d !! k = None ->
        catalog_total catalog (<[k:=q]> d) =
          match catalog !! k with
          | Some p => products.price p * q
          | None => 0
          end + catalog_total catalog d)
  /\ (forall (catalog : gmap string products.Product) uuid (A B : string) pA pB,
        A <> B ->
        catalog !! A = Some pA -> products.price pA = 150 ->
        catalog !! B = Some pB -> products.price pB = 300 ->
        totalPrice catalog (with_productList (BaseOrder_init uuid) {[ A := 2; B := 1 ]})
        = (Ok 600, [])).
Proof.
  split; [exact totalPrice_value_and_output|]. split.
  { intros catalog d k q Hk. by rewrite catalog_total_insert. }
  intros catalog uuid A B pA pB Hne HA HpA HB HpB.
  rewrite totalPrice_value_and_output. cbn [with_productList productList].
  f_equal.
  - f_equal. rewrite catalog_total_insert by by rewrite lookup_singleton_ne.
    rewrite <- insert_empty, catalog_total_insert by apply lookup_empty.
    rewrite catalog_total_empty. unfold entry_price. cbn [fst snd].
    rewrite HA, HB, HpA, HpB. lia.
  - unfold orphans.
    assert (Hnil : filter (fun item : string * Z => catalog !! item.1 = None)
                     (map_to_list ({[ A := 2; B := 1 ]} : gmap string Z)) = []).
    { apply elem_of_nil_inv. intros [k v] [Hnone Hin]%list_elem_of_filter.
      cbn [fst] in Hnone. apply elem_of_map_to_list in Hin.
      apply lookup_insert_Some in Hin as [[<- _]|[_ Hin]]; [congruence|].
      apply lookup_singleton_Some in Hin as [<- _]. congruence. }
    by rewrite Hnil.
Qed.

Lemma totalPrice_is_catalog_sum_witness :
  "A" <> "B"
  /\ products.price <$> demo_catalog !! "A" = Some 150
  /\ products.price <$> demo_catalog !! "B" = Some 300
  /\ totalPrice demo_catalog (with_productList (BaseOrder_init 7%N) {[ "A" := 2; "B" := 1 ]})
     = (Ok 600, [])
  /\ totalPrice demo_catalog
       (with_productList (BaseOrder_init 7%N) {[ "A" := 2; "B" := 1; "Z" := 9 ]})
     = (Ok 600, [diagnostic]).
Proof.
  destruct totalPrice_is_catalog_sum as (Hall & _ & Hex).
  split; [discriminate|]. split; [vm_compute; reflexivity|].
  split; [vm_compute; reflexivity|]. split.
  - eapply (Hex demo_catalog 7%N "A" "B"); [discriminate | | | |];
      vm_compute; reflexivity.
  - rewrite Hall. vm_compute. reflexivity.
Defined.

(** ** Discount codes *)

Section DiscountTheorems.
Variable datetime : Type.
Variable isoformat : datetime -> string.

Lemma check_add_discount_args_count
    (percentage dollarAmt : option Z) (freeShipping : option bool) :
  _check_add_discount_args percentage dollarAmt freeShipping = true
  <-> count_set percentage dollarAmt freeShipping <> 1%nat.
Proof.
  destruct percentage, dollarAmt, freeShipping; cbn; split; intros H;
    try done; try lia.
Qed.

(** Binding an integer raises only [OverflowError]. *)
Lemma adapt_int_raises v e : sqlite3.adapt_int v = Raise e -> e = OverflowError.
Proof.
  unfold sqlite3.adapt_int. destruct v as [z|]; [|done].
  destruct (decide _); [done|]. by intros [= <-].
Qed.

(** [INSERT] raises only [OperationalError] or [IntegrityError]. *)
Lemma insert_not_ProgrammingError tname row db msg :
  (sqlite3.insert tname row db).1 <> Raise (ProgrammingError msg).
Proof.
  unfold sqlite3.insert. destruct (db !! tname) as [t|]; [|done].
  destruct (negb _); [done|]. by destruct (sqlite3.violates_unique t row).
Qed.

(** A percentage discount on a table with the columns of
    [initDiscountDatabase] is appended, whatever the table holds. *)
Lemma addDiscount_percentage_appends code p db t :
  db !! "discounts" = Some t ->
  sqlite3.columns t = discounts_columns ->
  1 <= p <= 100 ->
  addDiscountToDatabase datetime isoformat code (Some p) None None None db =
    (Ok tt,
     <["discounts" :=
         {| sqlite3.columns := sqlite3.columns t;
            sqlite3.rows :=
              (sqlite3.rows t ++
               [[sqlite3.Text code; sqlite3.Integer p; sqlite3.Null;
                 sqlite3.Null; sqlite3.Text "NULL"]])%list |}]> db).
Proof.
  intros Ht Hcols Hp. unfold addDiscountToDatabase.
  cbn [_check_add_discount_args isNone negb andb orb].
  rewrite !bool_decide_eq_false_2 by lia. cbn [orb].
  unfold sqlite3.adapt_int.
  destruct (decide (- 2 ^ 63 <= p < 2 ^ 63)) as [_|Hr]; [|lia].
  unfold sqlite3.insert. rewrite Ht, Hcols. cbn [length discounts_columns].
  rewrite bool_decide_eq_true_2 by done. cbn [negb].
  unfold sqlite3.violates_unique. rewrite Hcols. by cbn.
Qed.

(** On a table with the columns of [initDiscountDatabase], or without the
    table, no call raises [IntegrityError]. *)
Lemma addDiscountToDatabase_no_IntegrityError code p d f e db msg :
  (forall t, db !! "discounts" = Some t -> sqlite3.columns t = discounts_columns) ->
  (addDiscountToDatabase datetime isoformat code p d f e db).1
  <> Raise (IntegrityError msg).
Proof.
  intros Hcols. unfold addDiscountToDatabase.
  destruct (_check_add_discount_args p d f); [done|].
  destruct (match p with Some _ => _ | None => _ end); [done|].
  destruct (match d with Some _ => _ | None => _ end); [done|].
  destruct (sqlite3.adapt_int p) as [vp|e1] eqn:Hp.
  2:{ apply adapt_int_raises in Hp as ->. done. }
  destruct (sqlite3.adapt_int d) as [vd|e2] eqn:Hd.
  2:{ apply adapt_int_raises in Hd as ->. done. }
  unfold sqlite3.insert. destruct (db !! "discounts") as [t|] eqn:Ht; [|done].
  destruct (negb _); [done|].
  unfold sqlite3.violates_unique. rewrite (Hcols t eq_refl). cbn.
  by destruct vp, vd, f.
Qed.

End DiscountTheorems.

(** C4: for every combination of [percentage], [dollarAmt] and
    [freeShipping], every code, expiration date and state of the store,
    [addDiscountToDatabase] raises [sqlite3.ProgrammingError] if and only if
    the number of those three arguments that are not [None] is not exactly
    one. *)
Theorem addDiscountToDatabase_ProgrammingError_iff
    (datetime : Type) (isoformat : datetime -> string) (discountCode : string)
    (percentage dollarAmt : option Z) (freeShipping : option bool)
    (expirationDate : option datetime) (db : sqlite3.database) :
  (exists msg,
     (addDiscountToDatabase datetime isoformat discountCode percentage dollarAmt
        freeShipping expirationDate db).1 = Raise (ProgrammingError msg))
  <-> count_set percentage dollarAmt freeShipping <> 1%nat.
Proof.
  rewrite <- check_add_discount_args_count. unfold addDiscountToDatabase.
  destruct (_check_add_discount_args percentage dollarAmt freeShipping).
  - split; [done|]. intros _. eexists. reflexivity.
  - split; [|done]. intros [msg H]. exfalso.
    destruct (match percentage with Some _ => _ | None => _ end); [done|].
    destruct (match dollarAmt with Some _ => _ | None => _ end); [done|].
    destruct (sqlite3.adapt_int percentage) as [vp|e1] eqn:Hp.
    + destruct (sqlite3.adapt_int dollarAmt) as [vd|e2] eqn:Hd.
      * by apply insert_not_ProgrammingError in H.
      * apply adapt_int_raises in Hd as ->. done.
    + apply adapt_int_raises in Hp as ->. done.
Qed.

(** The table [initDiscountDatabase] creates when the answer is yes. *)
Lemma initDiscountDatabase_yes :
  initDiscountDatabase ["y"] ∅ =
    (Ok tt, {[ "discounts" := {| sqlite3.columns := discounts_columns;
                                 sqlite3.rows := [] |} ]}).
Proof. reflexivity. Qed.

(** C2, on the code: on the store [initDiscountDatabase] creates, adding a
    percentage discount under a code that was already added succeeds a
    second time and stores a second row with that code; no uniqueness is
    enforced. *)
Theorem addDiscountToDatabase_duplicate_code_accepted
    (datetime : Type) (isoformat : datetime -> string) (code : string) (p : Z) :
  1 <= p <= 100 ->
  let db0 := (initDiscountDatabase ["y"] ∅).2 in
  let r1 := addDiscountToDatabase datetime isoformat code (Some p) None None None db0 in
  let r2 := addDiscountToDatabase datetime isoformat code (Some p) None None None r1.2 in
  r1.1 = Ok tt
  /\ length (rows_with_code code r1.2) = 1%nat
  /\ r2.1 = Ok tt
  /\ length (rows_with_code code r2.2) = 2%nat.
Proof.
  intros Hp db0 r1 r2. subst r2 r1 db0. rewrite initDiscountDatabase_yes. cbn [snd].
  erewrite (addDiscount_percentage_appends datetime isoformat code p);
    [|apply lookup_singleton_eq|reflexivity|exact Hp].
  cbn [fst snd sqlite3.columns sqlite3.rows app].
  erewrite (addDiscount_percentage_appends datetime isoformat code p);
    [|apply lookup_insert_eq|reflexivity|exact Hp].
  cbn [fst snd sqlite3.columns sqlite3.rows app].
  unfold rows_with_code. rewrite !lookup_insert_eq. cbn [sqlite3.rows].
  rewrite !filter_cons, filter_nil. cbn [lookup list_lookup].
  destruct (decide (Some (sqlite3.Text code) = Some (sqlite3.Text code))); done.
Qed.

Lemma addDiscountToDatabase_duplicate_code_accepted_witness :
  let db0 := (initDiscountDatabase ["y"] ∅).2 in
  let r1 := addDiscountToDatabase unit (fun _ => "") "X10" (Some 10) None None None db0 in
  let r2 := addDiscountToDatabase unit (fun _ => "") "X10" (Some 10) None None None r1.2 in
  1 <= 10 <= 100
  /\ r1.1 = Ok tt
  /\ r2.1 = Ok tt
  /\ length (rows_with_code "X10" r2.2) = 2%nat.
Proof.
  intros db0 r1 r2.
  destruct (addDiscountToDatabase_duplicate_code_accepted unit (fun _ => "") "X10" 10
              ltac:(lia)) as (H1 & _ & H2 & H3).
  split; [lia|]. split; [exact H1|]. split; [exact H2 | exact H3].
Defined.

(** * Further properties of the orders *)

Section Mutators.
Variable catalog : gmap string products.Product.
Implicit Types (self : BaseOrder) (p : string) (q : Z) (c : call).

(** What a call may do to the order: nothing, or write or delete the entry
    of its own product; and it raises only without touching the order. *)
Lemma run_call_shape c self :
  ((run_call catalog c self).2 = self
   \/ (exists q, (run_call catalog c self).2
                 = with_productList self (<[call_target c:=q]> (productList self)))
   \/ (run_call catalog c self).2
      = with_productList self (delete (call_target c) (productList self)))
  /\ (forall e, (run_call catalog c self).1 = Raise e ->
                (run_call catalog c self).2 = self).
Proof.
  destruct c as [p|p|p q]; cbn [run_call call_target];
    destruct (products.productExists catalog p) eqn:Hex.
  2:{ destruct (mutators_not_found catalog self p 0 Hex) as (-> & _). eauto. }
  3:{ destruct (mutators_not_found catalog self p 0 Hex) as (_ & -> & _). eauto. }
  4:{ destruct (mutators_not_found catalog self p q Hex) as (_ & _ & ->). eauto. }
  - rewrite addProduct_exists by done. cbn [fst snd]. split; [|done].
    destruct (productList self !! p) as [v|]; [|eauto].
    destruct (decide (v <= MAX_QUANTITY)); eauto.
  - rewrite removeProduct_exists by done. cbn [fst snd]. split; [|done].
    destruct (productList self !! p) as [v|]; [|eauto].
    destruct (decide (v = 1)); eauto.
  - rewrite setQuantity_exists by done.
    destruct (productList self !! p) as [v|].
    + destruct (decide (q = 0)); [cbn [fst snd]; split; [eauto | done]|].
      destruct (decide (q <= MAX_QUANTITY)); [|cbn [fst snd]; split; [eauto | done]].
      destruct (decide (v = 0)); cbn [fst snd]; (split; [eauto | done]).
    + destruct (decide (q = 0)); cbn [fst snd]; (split; [eauto | done]).
Qed.

End Mutators.

(** X1: a call of [addProduct], [removeProduct] or [setQuantity], whether it
    returns or raises, never changes [orderID] and never changes the entry
    of a product other than the one it is called with; the same holds for a
    sequence of calls none of which is about the product. *)
Theorem mutators_frame
    (catalog : gmap string products.Product) (cs : list call) (self : BaseOrder)
    (k : string) :
  Forall (fun c => call_target c <> k) cs ->
  productList (run_calls catalog cs self) !! k = productList self !! k
  /\ orderID (run_calls catalog cs self) = orderID self.
Proof.
  revert self. induction cs as [|c cs IH]; intros self Hcs; [done|].
  inversion Hcs as [|? ? Hc Hcs']; subst.
  unfold run_calls in *. cbn [foldl].
  destruct (IH (run_call catalog c self).2 Hcs') as [-> ->].
  destruct (run_call_shape catalog c self) as [[->|[[q ->]| ->]] _];
    cbn [with_productList productList orderID]; [done| |].
  - by rewrite lookup_insert_ne.
  - by rewrite lookup_delete_ne.
Qed.

Lemma mutators_frame_witness :
  let self := with_productList (BaseOrder_init 7%N) {[ "A" := 2; "B" := 5 ]} in
  let cs := [AddProduct "A"; SetQuantity "A" 0; RemoveProduct "Z"; SetQuantity "A" 9] in
  Forall (fun c => call_target c <> "B") cs
  /\ productList (run_calls demo_catalog cs self) !! "B" = Some 5
  /\ orderID (run_calls demo_catalog cs self) = 7%N.
Proof.
  intros self cs.
  assert (Hcs : Forall (fun c => call_target c <> "B") cs)
    by (repeat constructor; discriminate).
  split; [exact Hcs|].
  destruct (mutators_frame demo_catalog cs self "B" Hcs) as [H1 H2].
  split; [rewrite H1; vm_compute; reflexivity | exact H2].
Defined.

(** X2: [addProduct] and [removeProduct] raise exactly when the product is
    not in the catalog, and then [ProductNotFoundError]; [setQuantity]
    raises [ProductNotFoundError] for a product not in the catalog,
    [KeyError] when the quantity is 0 and the order has no entry for the
    product, and returns in every other case. *)
Theorem mutators_exceptions
    (catalog : gmap string products.Product) (self : BaseOrder) (p : string) (q : Z) :
  (addProduct catalog p self).1
    = (if products.productExists catalog p then Ok tt else Raise ProductNotFoundError)
  /\ (removeProduct catalog p self).1
    = (if products.productExists catalog p then Ok tt else Raise ProductNotFoundError)
  /\ (setQuantity catalog p q self).1
    = (if products.productExists catalog p
       then if decide (q = 0 /\ productList self !! p = None)
            then Raise (KeyError p) else Ok tt
       else Raise ProductNotFoundError).
Proof.
  destruct (products.productExists catalog p) eqn:Hex.
  - rewrite addProduct_exists, removeProduct_exists, setQuantity_exists by done.
    split; [done|]. split; [done|].
    destruct (productList self !! p) as [v|].
    + destruct (decide (q = 0 /\ Some v = None)) as [[_ ?]|_]; [done|].
      destruct (decide (q = 0)); [done|].
      destruct (decide (q <= MAX_QUANTITY)); [|done]. by destruct (decide (v = 0)).
    + destruct (decide (q = 0)) as [->|Hq].
      * by destruct (decide (0 = 0 /\ @None Z = None)) as [_|[]].
      * by destruct (decide (q = 0 /\ @None Z = None)) as [[? _]|_].
  - by destruct (mutators_not_found catalog self p q Hex) as (-> & -> & ->).
Qed.

(** X3: a call of a mutator that raises leaves the order exactly as it
    was. *)
Theorem mutators_raise_unchanged
    (catalog : gmap string products.Product) (c : call) (self : BaseOrder) (e : exn) :
  (run_call catalog c self).1 = Raise e ->
  (run_call catalog c self).2 = self.
Proof. intros He. by apply (run_call_shape catalog c self) in He. Qed.

Lemma mutators_raise_unchanged_witness :
  let self := with_productList (BaseOrder_init 7%N) {[ "A" := 2 ]} in
  (run_call demo_catalog (SetQuantity "B" 0) self).1 = Raise (KeyError "B")
  /\ (run_call demo_catalog (SetQuantity "B" 0) self).2 = self.
Proof.
  intros self.
  assert (H : (run_call demo_catalog (SetQuantity "B" 0) self).1 = Raise (KeyError "B"))
    by (vm_compute; reflexivity).
  split; [exact H|].
  exact (mutators_raise_unchanged demo_catalog (SetQuantity "B" 0) self _ H).
Defined.



(** X5: [setQuantity] is idempotent on the order: a second call with the
    same product and quantity leaves the order the first call left, for
    every order, product and quantity. *)
Theorem setQuantity_idempotent
    (catalog : gmap string products.Product) (self : BaseOrder) (p : string) (q : Z) :
  (setQuantity catalog p q (setQuantity catalog p q self).2).2
  = (setQuantity catalog p q self).2.
Proof.
  destruct (products.productExists catalog p) eqn:Hex.
  2:{ destruct (mutators_not_found catalog self p q Hex) as (_ & _ & Hs).
      rewrite Hs. cbn [snd]. by rewrite Hs. }
  rewrite (setQuantity_exists catalog self) by done.
  destruct (productList self !! p) as [v|] eqn:Hv.
  - destruct (decide (q = 0)) as [->|Hq].
    { cbn [snd]. rewrite setQuantity_exists by done.
      cbn [with_productList productList]. rewrite lookup_delete_eq.
      by destruct (decide (0 = 0)). }
    destruct (decide (q <= MAX_QUANTITY)) as [Hle|Hgt].
    + destruct (decide (v = 0)) as [->|Hv0]; cbn [snd];
        rewrite setQuantity_exists by done.
      * rewrite Hv. destruct (decide (q = 0)); [done|].
        destruct (decide (q <= MAX_QUANTITY)); [|done]. by destruct (decide (0 = 0)).
      * cbn [with_productList productList orderID]. rewrite lookup_insert_eq.
        destruct (decide (q = 0)); [done|].
        destruct (decide (q <= MAX_QUANTITY)); [|done].
        destruct (decide (q = 0)); [done|].
        cbn [snd with_productList productList orderID].
        by rewrite insert_insert_eq.
    + cbn [snd]. rewrite setQuantity_exists by done. rewrite Hv.
      destruct (decide (q = 0)); [done|].
      by destruct (decide (q <= MAX_QUANTITY)).
  - destruct (decide (q = 0)) as [->|Hq]; cbn [snd];
      rewrite setQuantity_exists by done.
    + rewrite Hv. by destruct (decide (0 = 0)).
    + cbn [with_productList productList orderID]. rewrite lookup_insert_eq.
      destruct (decide (q = 0)); [done|].
      destruct (decide (q <= MAX_QUANTITY)).
      * destruct (decide (q = 0)); [done|].
        cbn [snd with_productList productList orderID]. by rewrite insert_insert_eq.
      * done.
Qed.

(** ** Invariants of the orders *)

Section OrderInvariants.
Variable catalog : gmap string products.Product.

Lemma run_call_at_most c self :
  call_at_most (MAX_QUANTITY + 1) c ->
  quantities_at_most (MAX_QUANTITY + 1) self ->
  quantities_at_most (MAX_QUANTITY + 1) (run_call catalog c self).2.
Proof.
  intros Hc Hle.
  destruct c as [p|p|p q]; cbn [run_call];
    destruct (products.productExists catalog p) eqn:Hex.
  2:{ by destruct (mutators_not_found catalog self p 0 Hex) as (-> & _). }
  3:{ by destruct (mutators_not_found catalog self p 0 Hex) as (_ & -> & _). }
  4:{ by destruct (mutators_not_found catalog self p q Hex) as (_ & _ & ->). }
  - rewrite addProduct_exists by done. cbn [snd].
    destruct (productList self !! p) as [v|] eqn:Hv.
    + destruct (decide (v <= MAX_QUANTITY)); [|done].
      apply map_Forall_insert_2; [lia | done].
    + apply map_Forall_insert_2; [unfold MAX_QUANTITY; lia | done].
  - rewrite removeProduct_exists by done. cbn [snd].
    destruct (productList self !! p) as [v|] eqn:Hv; [|done].
    pose proof (map_Forall_lookup_1 _ _ _ _ Hle Hv) as Hv0. cbn beta in Hv0.
    destruct (decide (v = 1)).
    + by apply map_Forall_delete.
    + apply map_Forall_insert_2; [lia | done].
  - rewrite setQuantity_exists by done. cbn [call_at_most] in Hc.
    destruct (productList self !! p) as [v|] eqn:Hv.
    + destruct (decide (q = 0)); [by apply map_Forall_delete|].
      destruct (decide (q <= MAX_QUANTITY)); [|done].
      destruct (decide (v = 0)); [done|].
      apply map_Forall_insert_2; [lia | done].
    + destruct (decide (q = 0)); [done|].
      apply map_Forall_insert_2; [lia | done].
Qed.

(** A mutator only ever writes the entry of a product of the catalog. *)
Lemma run_call_in_catalog c self :
  in_catalog catalog self -> in_catalog catalog (run_call catalog c self).2.
Proof.
  intros Hin.
  assert (Hex : products.productExists catalog (call_target c) = false
                \/ is_Some (catalog !! call_target c)).
  { destruct (products.productExists catalog (call_target c)) eqn:Hex; [|by left].
    right. by apply productExists_true. }
  destruct Hex as [Hex|Hsome].
  - destruct c as [p|p|p q]; cbn [run_call call_target] in *.
    + by destruct (mutators_not_found catalog self p 0 Hex) as (-> & _).
    + by destruct (mutators_not_found catalog self p 0 Hex) as (_ & -> & _).
    + by destruct (mutators_not_found catalog self p q Hex) as (_ & _ & ->).
  - destruct (run_call_shape catalog c self) as [[->|[[q ->]| ->]] _]; [done| |].
    + by apply map_Forall_insert_2.
    + by apply map_Forall_delete.
Qed.

Lemma randint_1_5_range r : 1 <= random.randint r 1 5 <= 5.
Proof.
  unfold random.randint.
  pose proof (Z.mod_pos_bound (Z.of_nat r) (5 - 1 + 1) ltac:(lia)). lia.
Qed.

Lemma choice_elem_of r l k : random.choice r l = Ok k -> k ∈ l.
Proof.
  unfold random.choice. destruct (l !! _) as [x|] eqn:Hx; [|done].
  intros [= <-]. by eapply list_elem_of_lookup_2.
Qed.

Lemma select_uuid_in_catalog k :
  k ∈ products.select_uuid catalog -> is_Some (catalog !! k).
Proof.
  unfold products.select_uuid. intros [[k' v] [-> Hin]]%list_elem_of_fmap.
  apply elem_of_map_to_list in Hin. by exists v.
Qed.

(** What [RandomOrder] fills in: catalog products, quantities from 1 to 5,
    at most one entry per iteration. *)
Lemma RandomOrder_fill_entries rnd iters : forall d d',
  map_Forall (fun k q => is_Some (catalog !! k) /\ 1 <= q <= 5) d ->
  RandomOrder_fill (products.select_uuid catalog) rnd iters d = Ok d' ->
  map_Forall (fun k q => is_Some (catalog !! k) /\ 1 <= q <= 5) d'
  /\ (size d' <= size d + length iters)%nat.
Proof.
  induction iters as [|i iters IH]; intros d d' Hd Hfill; cbn in Hfill.
  - injection Hfill as <-. split; [done | lia].
  - destruct (random.choice _ _) as [k|e] eqn:Hk; [|done].
    apply IH in Hfill as [Hall Hsize].
    + split; [done|]. cbn [length].
      rewrite map_size_insert in Hsize.
      destruct (d !! k); cbn in Hsize; lia.
    + apply map_Forall_insert_2; [|done]. split.
      * apply select_uuid_in_catalog. by eapply choice_elem_of.
      * apply randint_1_5_range.
Qed.

Lemma Order_init_productList uuid (d : gmap string Z) :
  productList (Order_init catalog uuid (Some d))
  = filter (fun item => item.2 <> 0 /\ products.productExists catalog item.1 = true) d.
Proof.
  unfold Order_init. destruct (decide (d = ∅)) as [->|]; [|done].
  by rewrite map_filter_empty.
Qed.

Lemma constructed_in_catalog Q self :
  constructed catalog Q self -> in_catalog catalog self.
Proof.
  intros [uuid|uuid|uuid d Hd|uuid rnd n o Hinit].
  - apply map_Forall_empty.
  - apply map_Forall_empty.
  - unfold in_catalog. rewrite Order_init_productList.
    intros k q [_ [_ Hex]]%map_lookup_filter_Some. by apply productExists_true.
  - unfold RandomOrder_init in Hinit.
    destruct (RandomOrder_fill _ _ _ _) as [d|e] eqn:Hfill; [|done].
    injection Hinit as <-.
    apply RandomOrder_fill_entries in Hfill as [Hall _]; [|apply map_Forall_empty].
    intros k q Hk. by destruct (Hall k q Hk).
Qed.

Lemma in_catalog_no_orphans self :
  in_catalog catalog self -> orphans catalog (productList self) = [].
Proof.
  intros Hin. apply elem_of_nil_inv. intros [k v] [Hnone Hkv]%list_elem_of_filter.
  cbn [fst] in Hnone. apply elem_of_map_to_list in Hkv.
  destruct (Hin k v Hkv) as [x Hx]. congruence.
Qed.

End OrderInvariants.

(** X6: on an order none of whose quantities exceeds [MAX_QUANTITY + 1],
    no sequence of [addProduct], [removeProduct] and [setQuantity] calls
    that sets no quantity above [MAX_QUANTITY + 1] makes any quantity exceed
    [MAX_QUANTITY + 1]. *)
Theorem quantities_stay_at_most
    (catalog : gmap string products.Product) (cs : list call) (self : BaseOrder) :
  Forall (call_at_most (MAX_QUANTITY + 1)) cs ->
  quantities_at_most (MAX_QUANTITY + 1) self ->
  quantities_at_most (MAX_QUANTITY + 1) (run_calls catalog cs self).
Proof.
  revert self. induction cs as [|c cs IH]; intros self Hcs Hle; [done|].
  inversion Hcs as [|? ? Hc Hcs']; subst.
  unfold run_calls in *. cbn [foldl]. apply IH; [done|].
  by apply run_call_at_most.
Qed.

Lemma quantities_stay_at_most_witness :
  let self := with_productList (BaseOrder_init 7%N) {[ "A" := 25 ]} in
  let cs := [AddProduct "A"; AddProduct "A"; SetQuantity "B" 26; AddProduct "B"] in
  Forall (call_at_most (MAX_QUANTITY + 1)) cs
  /\ quantities_at_most (MAX_QUANTITY + 1) self
  /\ quantities_at_most (MAX_QUANTITY + 1) (run_calls demo_catalog cs self).
Proof.
  intros self cs.
  assert (Hcs : Forall (call_at_most (MAX_QUANTITY + 1)) cs).
  { repeat constructor; cbn; unfold MAX_QUANTITY; lia. }
  assert (Hself : quantities_at_most (MAX_QUANTITY + 1) self).
  { unfold self, quantities_at_most. cbn [with_productList productList].
    intros k q Hk. apply lookup_singleton_Some in Hk as [_ <-].
    unfold MAX_QUANTITY. lia. }
  split; [exact Hcs|]. split; [exact Hself|].
  exact (quantities_stay_at_most demo_catalog cs self Hcs Hself).
Defined.

(** X7: an order produced by a constructor and changed by any sequence of
    mutator calls holds only products of the catalog, so that [totalPrice]
    prints no diagnostic on it. *)
Theorem constructed_orders_in_catalog
    (catalog : gmap string products.Product) (Q : Z -> Prop) (cs : list call)
    (self : BaseOrder) :
  constructed catalog Q self ->
  in_catalog catalog (run_calls catalog cs self)
  /\ (totalPrice catalog (run_calls catalog cs self)).2 = [].
Proof.
  intros Hself.
  assert (Hin : in_catalog catalog (run_calls catalog cs self)).
  { apply (constructed_in_catalog catalog) in Hself. revert self Hself.
    induction cs as [|c cs IH]; intros self Hself; [done|].
    unfold run_calls in *. cbn [foldl]. apply IH.
    by apply run_call_in_catalog. }
  split; [exact Hin|].
  rewrite totalPrice_value_and_output. cbn [snd].
  by rewrite (in_catalog_no_orphans catalog _ Hin).
Qed.

Lemma constructed_orders_in_catalog_witness :
  let self := Order_init demo_catalog 7%N (Some {[ "A" := 2; "Z" := 4 ]}) in
  let cs := [AddProduct "B"; SetQuantity "Z" 3; RemoveProduct "A"] in
  constructed demo_catalog (fun _ => True) self
  /\ in_catalog demo_catalog (run_calls demo_catalog cs self)
  /\ (totalPrice demo_catalog (run_calls demo_catalog cs self)).2 = [].
Proof.
  intros self cs.
  assert (Hself : constructed demo_catalog (fun _ => True) self)
    by (by apply constructed_Order).
  split; [exact Hself|].
  exact (constructed_orders_in_catalog demo_catalog (fun _ => True) cs self Hself).
Defined.

(** ** The constructors *)

(** X8: the order [Order(orderDict)] builds carries the given identifier and
    holds exactly the entries of the mapping whose quantity is not zero and
    whose product the catalog knows, with their quantities; [Order()] and
    [Order({})] are the empty order. *)
Theorem Order_init_entries
    (catalog : gmap string products.Product) (uuid : UUID) (d : gmap string Z) :
  (forall k q,
     productList (Order_init catalog uuid (Some d)) !! k = Some q
     <-> d !! k = Some q /\ q <> 0 /\ products.productExists catalog k = true)
  /\ orderID (Order_init catalog uuid (Some d)) = uuid
  /\ Order_init catalog uuid None = BaseOrder_init uuid
  /\ Order_init catalog uuid (Some ∅) = BaseOrder_init uuid.
Proof.
  split; [|split; [|done]].
  - intros k q. rewrite Order_init_productList, map_lookup_filter_Some. done.
  - unfold Order_init. by destruct (decide (d = ∅)).
Qed.

(** X9: [Order] returns a mapping all of whose quantities are non-zero and
    whose products are all in the catalog unchanged, and building an order
    from the product list of a built order changes nothing. *)
Theorem Order_init_sanitizes_once
    (catalog : gmap string products.Product) (uuid uuid' : UUID) (d : gmap string Z) :
  ((forall k q, d !! k = Some q -> q <> 0 /\ products.productExists catalog k = true) ->
   productList (Order_init catalog uuid (Some d)) = d)
  /\ productList
       (Order_init catalog uuid' (Some (productList (Order_init catalog uuid (Some d)))))
     = productList (Order_init catalog uuid (Some d)).
Proof.
  split.
  - intros Hd. rewrite Order_init_productList. apply map_filter_id.
    intros k q Hk. by apply Hd.
  - rewrite (Order_init_productList catalog uuid'). apply map_filter_id.
    intros k q Hk. rewrite Order_init_productList in Hk.
    by apply map_lookup_filter_Some in Hk as [_ ?].
Qed.

Lemma Order_init_sanitizes_once_witness :
  productList (Order_init demo_catalog 7%N (Some {[ "A" := 2; "B" := -1 ]}))
  = {[ "A" := 2; "B" := -1 ]}
  /\ productList
       (Order_init demo_catalog 8%N
          (Some (productList
                   (Order_init demo_catalog 7%N (Some {[ "A" := 2; "B" := 0; "Z" := 1 ]})))))
     = {[ "A" := 2 ]}.
Proof.
  split.
  - apply (Order_init_sanitizes_once demo_catalog 7%N 7%N).
    intros k q Hk.
    apply lookup_insert_Some in Hk as [[<- <-]|[_ Hk]];
      [split; [lia | vm_compute; reflexivity]|].
    apply lookup_singleton_Some in Hk as [<- <-].
    split; [lia | vm_compute; reflexivity].
  - destruct (Order_init_sanitizes_once demo_catalog 7%N 8%N
                {[ "A" := 2; "B" := 0; "Z" := 1 ]}) as [_ ->].
    vm_compute. reflexivity.
Defined.

Section RandomOrders.
Variable catalog : gmap string products.Product.

Lemma select_uuid_nil : products.select_uuid catalog = [] <-> catalog = ∅.
Proof.
  unfold products.select_uuid. rewrite <- map_to_list_empty_iff. split.
  - apply fmap_nil_inv.
  - by intros ->.
Qed.

Lemma choice_nonempty r l : l <> [] -> exists k, random.choice r l = Ok k.
Proof.
  intros Hl. unfold random.choice.
  destruct (lookup_lt_is_Some_2 l (r mod length l)%nat) as [k ->]; [|by exists k].
  apply Nat.mod_upper_bound. by destruct l.
Qed.

Lemma RandomOrder_fill_nonempty allProducts rnd iters : forall d,
  allProducts <> [] -> exists d', RandomOrder_fill allProducts rnd iters d = Ok d'.
Proof.
  induction iters as [|i iters IH]; intros d Hl; cbn [RandomOrder_fill]; [by exists d|].
  destruct (choice_nonempty (rnd (2 * i)%nat) allProducts Hl) as [k ->].
  by apply IH.
Qed.

End RandomOrders.

(** X10: an order [RandomOrder(numRandomProducts)] returns carries the given
    identifier, holds only products of the catalog, each with a quantity
    from 1 to 5, and has at most [numRandomProducts] entries. *)
Theorem RandomOrder_init_entries
    (catalog : gmap string products.Product) (uuid : UUID) (rnd : nat -> nat)
    (numRandomProducts : Z) (o : BaseOrder) :
  RandomOrder_init catalog uuid rnd numRandomProducts = Ok o ->
  orderID o = uuid
  /\ map_Forall (fun k q => is_Some (catalog !! k) /\ 1 <= q <= 5) (productList o)
  /\ (size (productList o) <= Z.to_nat numRandomProducts)%nat.
Proof.
  unfold RandomOrder_init. intros Hinit.
  destruct (RandomOrder_fill _ _ _ _) as [d|e] eqn:Hfill; [|done].
  injection Hinit as <-.
  apply RandomOrder_fill_entries in Hfill as [Hall Hsize]; [|apply map_Forall_empty].
  rewrite map_size_empty, length_seq in Hsize. done.
Qed.

Lemma RandomOrder_init_entries_witness :
  let o := with_productList (BaseOrder_init 7%N) {[ "A" := 3; "B" := 5 ]} in
  RandomOrder_init demo_catalog 7%N (fun i => (i + i / 2)%nat) 3 = Ok o
  /\ orderID o = 7%N
  /\ map_Forall (fun k q => is_Some (demo_catalog !! k) /\ 1 <= q <= 5) (productList o)
  /\ (size (productList o) <= Z.to_nat 3)%nat.
Proof.
  intros o.
  assert (H : RandomOrder_init demo_catalog 7%N (fun i => (i + i / 2)%nat) 3 = Ok o)
    by (vm_compute; reflexivity).
  split; [exact H|].
  exact (RandomOrder_init_entries demo_catalog 7%N _ 3 o H).
Defined.

(** X11: [RandomOrder] raises [IndexError] when the catalog is empty and at
    least one product is asked for, returns an order whenever the catalog is
    not empty, and returns the empty order when the number asked for is zero
    or negative. *)
Theorem RandomOrder_init_outcome
    (catalog : gmap string products.Product) (uuid : UUID) (rnd : nat -> nat)
    (numRandomProducts : Z) :
  (catalog = ∅ -> 1 <= numRandomProducts ->
   RandomOrder_init catalog uuid rnd numRandomProducts = Raise IndexError)
  /\ (catalog <> ∅ ->
      exists o, RandomOrder_init catalog uuid rnd numRandomProducts = Ok o)
  /\ (numRandomProducts <= 0 ->
      RandomOrder_init catalog uuid rnd numRandomProducts = Ok (BaseOrder_init uuid)).
Proof.
  unfold RandomOrder_init. split; [|split].
  - intros -> Hn. destruct (Z.to_nat numRandomProducts) as [|n] eqn:Hk; [lia|].
    by rewrite (proj2 (select_uuid_nil ∅) eq_refl).
  - intros Hne.
    destruct (RandomOrder_fill_nonempty (products.select_uuid catalog) rnd
                (seq 0 (Z.to_nat numRandomProducts)) ∅) as [d ->]; [|by eexists].
    by rewrite select_uuid_nil.
  - intros Hn. by replace (Z.to_nat numRandomProducts) with 0%nat by lia.
Qed.

Lemma RandomOrder_init_outcome_witness :
  RandomOrder_init ∅ 7%N (fun i => i) 2 = Raise IndexError
  /\ (exists o, RandomOrder_init demo_catalog 7%N (fun i => i) 2 = Ok o)
  /\ RandomOrder_init demo_catalog 7%N (fun i => i) (-4) = Ok (BaseOrder_init 7%N).
Proof.
  split; [|split].
  - apply (RandomOrder_init_outcome ∅ 7%N (fun i => i) 2); [reflexivity | lia].
  - apply (RandomOrder_init_outcome demo_catalog 7%N (fun i => i) 2).
    intros H. apply (f_equal (fun m => m !! "A")) in H. vm_compute in H. discriminate.
  - apply (RandomOrder_init_outcome demo_catalog 7%N (fun i => i) (-4)). lia.
Defined.

(** ** The total price along the mutators *)

Section TotalAlongCalls.
Variable catalog : gmap string products.Product.

(** The total is the price of one product's entry plus the total of the
    other entries. *)
Lemma catalog_total_split (d : gmap string Z) k prod :
  catalog !! k = Some prod ->
  catalog_total catalog d
  = products.price prod * default 0 (d !! k) + catalog_total catalog (delete k d).
Proof.
  intros Hk. destruct (d !! k) as [v|] eqn:Hv; cbn [default].
  - rewrite <- (insert_delete_id d k v Hv) at 1.
    rewrite catalog_total_insert by apply lookup_delete_eq.
    unfold entry_price. cbn [fst snd]. by rewrite Hk.
  - rewrite delete_id by done. lia.
Qed.

End TotalAlongCalls.

(** X12: a call of a mutator for a product of the catalog changes the total
    price by the product's unit price times the change of that product's
    quantity, an absent entry counting as quantity 0. *)
Theorem total_follows_quantity
    (catalog : gmap string products.Product) (c : call) (self : BaseOrder)
    (prod : products.Product) :
  catalog !! call_target c = Some prod ->
  catalog_total catalog (productList (run_call catalog c self).2)
  = catalog_total catalog (productList self)
    + products.price prod
      * (default 0 (productList (run_call catalog c self).2 !! call_target c)
         - default 0 (productList self !! call_target c)).
Proof.
  intros Hp.
  rewrite (catalog_total_split catalog (productList (run_call catalog c self).2) _ _ Hp).
  rewrite (catalog_total_split catalog (productList self) _ _ Hp).
  destruct (run_call_shape catalog c self) as [[->|[[q ->]| ->]] _];
    cbn [with_productList productList]; [lia| |].
  - rewrite delete_insert_eq. lia.
  - rewrite delete_delete_eq. lia.
Qed.

Lemma total_follows_quantity_witness :
  let self := with_productList (BaseOrder_init 7%N) {[ "A" := 2; "B" := 1 ]} in
  demo_catalog !! "A" = Some {| products.name := "apple"; products.price := 150 |}
  /\ catalog_total demo_catalog
       (productList (run_call demo_catalog (SetQuantity "A" 7) self).2)
     = 600 + 150 * (7 - 2).
Proof.
  intros self.
  assert (H : demo_catalog !! "A"
              = Some {| products.name := "apple"; products.price := 150 |})
    by (vm_compute; reflexivity).
  split; [exact H|].
  rewrite (total_follows_quantity demo_catalog (SetQuantity "A" 7) self _ H).
  vm_compute. reflexivity.
Defined.

(** X13: for a product of the catalog, [addProduct] raises the total price
    by exactly the unit price when the product is absent or its quantity is
    at most [MAX_QUANTITY], and [removeProduct] lowers it by exactly the unit
    price when the order holds the product. *)
Theorem total_after_add_and_remove
    (catalog : gmap string products.Product) (self : BaseOrder) (p : string)
    (prod : products.Product) :
  catalog !! p = Some prod ->
  ((forall v, productList self !! p = Some v -> v <= MAX_QUANTITY) ->
   (totalPrice catalog (addProduct catalog p self).2).1
   = Ok (catalog_total catalog (productList self) + products.price prod))
  /\ (is_Some (productList self !! p) ->
      (totalPrice catalog (removeProduct catalog p self).2).1
      = Ok (catalog_total catalog (productList self) - products.price prod)).
Proof.
  intros Hp.
  assert (Hex : products.productExists catalog p = true)
    by (apply productExists_true; eauto).
  rewrite !totalPrice_value_and_output. cbn [fst].
  rewrite addProduct_exists, removeProduct_exists by done. cbn [snd].
  rewrite (catalog_total_split catalog (productList self) _ _ Hp).
  split.
  - intros Hv. apply (f_equal Ok). destruct (productList self !! p) as [v|] eqn:Hl.
    + destruct (decide (v <= MAX_QUANTITY)); [|by specialize (Hv v eq_refl)].
      cbn [with_productList productList default].
      rewrite (catalog_total_split catalog (<[p:=v + 1]> (productList self)) _ _ Hp).
      rewrite lookup_insert_eq, delete_insert_eq. cbn [default]. unfold id. lia.
    + cbn [with_productList productList default].
      rewrite (catalog_total_split catalog (<[p:=1]> (productList self)) _ _ Hp).
      rewrite lookup_insert_eq, delete_insert_eq. cbn [default]. unfold id. lia.
  - intros [v Hl]. rewrite Hl. apply (f_equal Ok). cbn [default].
    destruct (decide (v = 1)) as [->|Hne]; cbn [with_productList productList].
    + rewrite (catalog_total_split catalog (delete p (productList self)) _ _ Hp).
      rewrite lookup_delete_eq, delete_delete_eq. cbn [default]. unfold id. lia.
    + rewrite (catalog_total_split catalog (<[p:=v + -1]> (productList self)) _ _ Hp).
      rewrite lookup_insert_eq, delete_insert_eq. cbn [default]. unfold id. lia.
Qed.

Lemma total_after_add_and_remove_witness :
  let self := with_productList (BaseOrder_init 7%N) {[ "A" := 2; "B" := 1 ]} in
  demo_catalog !! "B" = Some {| products.name := "bread"; products.price := 300 |}
  /\ (totalPrice demo_catalog (addProduct demo_catalog "B" self).2).1 = Ok 900
  /\ (totalPrice demo_catalog (removeProduct demo_catalog "B" self).2).1 = Ok 300.
Proof.
  intros self.
  assert (H : demo_catalog !! "B"
              = Some {| products.name := "bread"; products.price := 300 |})
    by (vm_compute; reflexivity).
  split; [exact H|].
  destruct (total_after_add_and_remove demo_catalog self "B" _ H) as [Hadd Hrm].
  split.
  - rewrite Hadd; [vm_compute; reflexivity|].
    intros v Hv. assert (v = 1) as -> by (vm_compute in Hv; congruence).
    unfold MAX_QUANTITY. lia.
  - rewrite Hrm; [vm_compute; reflexivity|]. exists 1. vm_compute; reflexivity.
Defined.

(** * Further properties of [formatCentsToDollars] *)

Section ReadingBack.

(** The display string, digit by digit. *)
Lemma formatCentsToDollars_digits cents :
  formatCentsToDollars cents =
    (if decide (cents < 0) then "-" else "")
    +:+ "$" +:+ PyStr.str_digits (Z.abs cents / 100)
    +:+ "." +:+ PyStr.digit (Z.abs cents mod 100 / 10)
    +:+ PyStr.digit (Z.abs cents mod 100 mod 10).
Proof.
  assert (Hd : 0 <= Z.abs cents / 100) by (apply Z.div_pos; lia).
  assert (Hm : 0 <= Z.abs cents mod 100 < 100) by (apply Z.mod_pos_bound; lia).
  rewrite <- zfill2_str, <- (str_nonneg (Z.abs cents / 100)) by done.
  unfold formatCentsToDollars. destruct (decide (cents < 0)) as [Hneg|Hpos].
  - rewrite drop_sign_str by done. cbn [negb].
    f_equal. apply format_magnitude. lia.
  - rewrite (str_nonneg cents) by lia. cbn [negb]. rewrite Z.abs_eq by lia.
    change ("" +:+ ?s) with s. apply format_magnitude. lia.
Qed.

Lemma digits_value_digit acc d s :
  0 <= d < 10 ->
  digits_value acc (PyStr.digit d +:+ s) = digits_value (10 * acc + d) s.
Proof.
  intros Hd.
  assert (d = 0 \/ d = 1 \/ d = 2 \/ d = 3 \/ d = 4 \/ d = 5 \/ d = 6 \/ d = 7
          \/ d = 8 \/ d = 9) as Hcases by lia.
  destruct Hcases as [->|[->|[->|[->|[->|[->|[->|[->|[->| ->]]]]]]]]]; reflexivity.
Qed.

Lemma digits_value_digit_end acc d :
  0 <= d < 10 -> digits_value acc (PyStr.digit d) = 10 * acc + d.
Proof.
  intros Hd. change (PyStr.digit d) with (PyStr.digit d +:+ "").
  by rewrite digits_value_digit.
Qed.

Lemma digits_value_app a : forall acc b,
  digits_value acc (a +:+ b) = digits_value (digits_value acc a) b.
Proof.
  induction a as [|x a IH]; intros acc b; [done|].
  rewrite string_app_cons. cbn [digits_value]. apply IH.
Qed.

Lemma str_digits_fuel_S f n :
  PyStr.str_digits_fuel (S f) n =
    if decide (n < 10) then PyStr.digit n
    else PyStr.str_digits_fuel f (n / 10) +:+ PyStr.digit (n mod 10).
Proof. reflexivity. Qed.

Lemma digits_value_str_digits_fuel f : forall n,
  0 <= n < 10 ^ Z.of_nat (S f) ->
  digits_value 0 (PyStr.str_digits_fuel (S f) n) = n.
Proof.
  induction f as [|f IH]; intros n Hn.
  - change (10 ^ Z.of_nat 1) with 10 in Hn. cbn [PyStr.str_digits_fuel].
    destruct (decide (n < 10)); [|lia].
    rewrite digits_value_digit_end by lia. lia.
  - rewrite (str_digits_fuel_S (S f)). destruct (decide (n < 10)) as [Hlt|Hge].
    + rewrite digits_value_digit_end by lia. lia.
    + rewrite digits_value_app, IH.
      * pose proof (Z.mod_pos_bound n 10 ltac:(lia)).
        rewrite digits_value_digit_end by lia.
        Z.to_euclidean_division_equations; lia.
      * split; [apply Z.div_pos; lia|].
        apply Z.div_lt_upper_bound; [lia|].
        rewrite (Nat2Z.inj_succ (S f)), Z.pow_succ_r in Hn by lia. lia.
Qed.

Lemma digits_value_str_digits n : 0 <= n -> digits_value 0 (PyStr.str_digits n) = n.
Proof.
  intros Hn. apply digits_value_str_digits_fuel. split; [done|].
  by apply lt_pow10_log2.
Qed.

Lemma parse_cents_formatted cents : parse_cents (formatCentsToDollars cents) = cents.
Proof.
  rewrite formatCentsToDollars_digits.
  assert (Hd : 0 <= Z.abs cents / 100) by (apply Z.div_pos; lia).
  assert (Hm : 0 <= Z.abs cents mod 100 < 100) by (apply Z.mod_pos_bound; lia).
  assert (H1 : 0 <= Z.abs cents mod 100 / 10 < 10).
  { split; [apply Z.div_pos; lia | apply Z.div_lt_upper_bound; lia]. }
  assert (H0 : 0 <= Z.abs cents mod 100 mod 10 < 10) by (apply Z.mod_pos_bound; lia).
  assert (Hval : forall s, s = PyStr.str_digits (Z.abs cents / 100)
                   +:+ "." +:+ PyStr.digit (Z.abs cents mod 100 / 10)
                   +:+ PyStr.digit (Z.abs cents mod 100 mod 10) ->
                 digits_value 0 s = Z.abs cents).
  { intros s ->. rewrite digits_value_app, digits_value_str_digits by done.
    change ("." +:+ ?s) with (String "."%char s). cbn [digits_value].
    change (digit_value "."%char) with (@None Z). cbv iota.
    rewrite digits_value_digit, digits_value_digit_end by done.
    Z.to_euclidean_division_equations; lia. }
  destruct (decide (cents < 0)).
  - change (parse_cents ("-" +:+ "$" +:+ ?s)) with (- digits_value 0 s).
    rewrite Hval by done. lia.
  - change (parse_cents ("" +:+ "$" +:+ ?s)) with (digits_value 0 s).
    rewrite Hval by done. lia.
Qed.

End ReadingBack.

(** X14: the amount can be read back from the string
    [formatCentsToDollars] returns, so that two different amounts never
    format to the same string. *)
Theorem formatCentsToDollars_injective :
  (forall cents : Z, parse_cents (formatCentsToDollars cents) = cents)
  /\ (forall a b : Z, formatCentsToDollars a = formatCentsToDollars b -> a = b).
Proof.
  split; [exact parse_cents_formatted|].
  intros a b Hab. rewrite <- (parse_cents_formatted a), <- (parse_cents_formatted b).
  by rewrite Hab.
Qed.

Lemma formatCentsToDollars_injective_witness :
  parse_cents (formatCentsToDollars (-1234567)) = -1234567
  /\ (formatCentsToDollars 105 = formatCentsToDollars (100 + 5) -> 105 = 100 + 5).
Proof.
  destruct formatCentsToDollars_injective as [Hparse Hinj].
  split; [apply Hparse | apply Hinj].
Defined.

(** X15: a negative amount is formatted as ["-"] followed by the format of
    its absolute value. *)
Theorem formatCentsToDollars_negative (cents : Z) :
  cents < 0 ->
  formatCentsToDollars cents = "-" +:+ formatCentsToDollars (- cents).
Proof.
  intros Hneg. rewrite !formatCentsToDollars_digits.
  destruct (decide (cents < 0)); [|lia]. destruct (decide (- cents < 0)); [lia|].
  by rewrite Z.abs_opp.
Qed.

Lemma formatCentsToDollars_negative_witness :
  -250 < 0 /\ formatCentsToDollars (-250) = "-" +:+ formatCentsToDollars 250.
Proof.
  split; [lia|]. exact (formatCentsToDollars_negative (-250) ltac:(lia)).
Defined.

(** * Further properties of the discount store *)

Section DiscountOutcome.
Variable datetime : Type.
Variable isoformat : datetime -> string.

Lemma adapt_int_Ok v x :
  sqlite3.adapt_int v = Ok x ->
  x = match v with Some z => sqlite3.Integer z | None => sqlite3.Null end
  /\ (forall z, v = Some z -> - 2 ^ 63 <= z < 2 ^ 63).
Proof.
  unfold sqlite3.adapt_int. destruct v as [z|].
  - destruct (decide _) as [Hr|]; [|done]. intros [= <-]. split; [done|].
    by intros ? [= <-].
  - intros [= <-]. done.
Qed.

(** A call that returns has appended its row to the discounts table and was
    given valid arguments; a call that raises has not touched the store. *)
Lemma addDiscount_outcome code p d f e db :
  let r := addDiscountToDatabase datetime isoformat code p d f e db in
  (r.1 = Ok tt ->
   discount_args_valid p d f
   /\ exists t, db !! "discounts" = Some t
        /\ r.2 = with_discount_row db t
                   (discount_row code p d f (expiration_text isoformat e)))
  /\ (forall x, r.1 = Raise x -> r.2 = db).
Proof.
  cbv zeta. unfold addDiscountToDatabase.
  destruct (_check_add_discount_args p d f) eqn:Hcheck; [done|].
  assert (Hcount : count_set p d f = 1%nat).
  { destruct (decide (count_set p d f = 1%nat)) as [|Hne]; [done|].
    apply check_add_discount_args_count in Hne. congruence. }
  destruct (match p with Some _ => _ | None => _ end) eqn:Hp; [done|].
  destruct (match d with Some _ => _ | None => _ end) eqn:Hd; [done|].
  destruct (sqlite3.adapt_int p) as [vp|e1] eqn:Hap; [|done].
  destruct (sqlite3.adapt_int d) as [vd|e2] eqn:Had; [|done].
  apply adapt_int_Ok in Hap as [-> Hpr]. apply adapt_int_Ok in Had as [-> Hdr].
  unfold sqlite3.insert. destruct (db !! "discounts") as [t|] eqn:Ht; [|done].
  destruct (negb _); [done|]. destruct (sqlite3.violates_unique t _); [done|].
  cbn [fst snd]. split; [|done]. intros _. split; [|by exists t].
  split; [done|]. split.
  - intros z ->. apply orb_false_elim in Hp as [H1 H2].
    apply bool_decide_eq_false in H1, H2. lia.
  - intros z ->. apply bool_decide_eq_false in Hd.
    specialize (Hdr z eq_refl). lia.
Qed.

(** With valid arguments the call is its [INSERT]. *)
Lemma addDiscount_valid_inserts code p d f e db :
  discount_args_valid p d f ->
  addDiscountToDatabase datetime isoformat code p d f e db =
    sqlite3.insert "discounts"
      (discount_row code p d f (expiration_text isoformat e)) db.
Proof.
  intros (Hcount & Hp & Hd). unfold addDiscountToDatabase.
  destruct (_check_add_discount_args p d f) eqn:Hcheck.
  { apply check_add_discount_args_count in Hcheck. done. }
  assert (Hpb : match p with
                | Some p => bool_decide (p < 1) || bool_decide (p > 100)
                | None => false
                end = false).
  { destruct p as [z|]; [|done]. specialize (Hp z eq_refl).
    by rewrite !bool_decide_eq_false_2 by lia. }
  assert (Hdb : match d with Some d => bool_decide (d < 1) | None => false end = false).
  { destruct d as [z|]; [|done]. specialize (Hd z eq_refl).
    by rewrite bool_decide_eq_false_2 by lia. }
  rewrite Hpb, Hdb.
  assert (Hap : sqlite3.adapt_int p
                = Ok match p with Some z => sqlite3.Integer z | None => sqlite3.Null end).
  { unfold sqlite3.adapt_int. destruct p as [z|]; [|done]. specialize (Hp z eq_refl).
    destruct (decide _); [done | lia]. }
  assert (Had : sqlite3.adapt_int d
                = Ok match d with Some z => sqlite3.Integer z | None => sqlite3.Null end).
  { unfold sqlite3.adapt_int. destruct d as [z|]; [|done]. specialize (Hd z eq_refl).
    destruct (decide _); [done | lia]. }
  by rewrite Hap, Had.
Qed.

(** On a table with the columns of [initDiscountDatabase], valid arguments
    are always accepted. *)
Lemma addDiscount_valid_appends code p d f e db t :
  db !! "discounts" = Some t ->
  sqlite3.columns t = discounts_columns ->
  discount_args_valid p d f ->
  addDiscountToDatabase datetime isoformat code p d f e db =
    (Ok tt,
     with_discount_row db t (discount_row code p d f (expiration_text isoformat e))).
Proof.
  intros Ht Hcols Hvalid. rewrite addDiscount_valid_inserts by done.
  unfold sqlite3.insert. rewrite Ht, Hcols.
  cbn [length discounts_columns discount_row]. rewrite bool_decide_eq_true_2 by done.
  cbn [negb]. unfold sqlite3.violates_unique. rewrite Hcols. cbn.
  unfold with_discount_row. by rewrite Hcols.
Qed.

End DiscountOutcome.

(** X16: a call of [addDiscountToDatabase] that raises, whatever the
    exception, leaves the store exactly as it was. *)
Theorem addDiscountToDatabase_raise_unchanged
    (datetime : Type) (isoformat : datetime -> string) (discountCode : string)
    (percentage dollarAmt : option Z) (freeShipping : option bool)
    (expirationDate : option datetime) (db : sqlite3.database) (e : exn) :
  (addDiscountToDatabase datetime isoformat discountCode percentage dollarAmt
     freeShipping expirationDate db).1 = Raise e ->
  (addDiscountToDatabase datetime isoformat discountCode percentage dollarAmt
     freeShipping expirationDate db).2 = db.
Proof.
  intros He.
  by apply (addDiscount_outcome datetime isoformat discountCode percentage dollarAmt
              freeShipping expirationDate db) in He.
Qed.

Lemma addDiscountToDatabase_raise_unchanged_witness :
  let db := (initDiscountDatabase ["y"] ∅).2 in
  (addDiscountToDatabase unit (fun _ => "") "X10" (Some 150) None None None db).1
  = Raise (ValueError "`percentage` must be on the interval [1,100].")
  /\ (addDiscountToDatabase unit (fun _ => "") "X10" (Some 150) None None None db).2 = db.
Proof.
  intros db.
  assert (H : (addDiscountToDatabase unit (fun _ => "") "X10" (Some 150) None None None
                 db).1
              = Raise (ValueError "`percentage` must be on the interval [1,100]."))
    by reflexivity.
  split; [exact H|].
  exact (addDiscountToDatabase_raise_unchanged unit _ "X10" (Some 150) None None None
           db _ H).
Defined.

(** X17: a call of [addDiscountToDatabase] that returns was given exactly
    one discount kind, a percentage from 1 to 100 or a dollar amount of at
    least 1 if any, and has appended exactly one row after the rows the
    discounts table held, holding the code, the three kinds with [None] as
    [NULL], and the expiration as text; nothing else in the store
    changed. *)
Theorem addDiscountToDatabase_returns_appended
    (datetime : Type) (isoformat : datetime -> string) (discountCode : string)
    (percentage dollarAmt : option Z) (freeShipping : option bool)
    (expirationDate : option datetime) (db : sqlite3.database) :
  (addDiscountToDatabase datetime isoformat discountCode percentage dollarAmt
     freeShipping expirationDate db).1 = Ok tt ->
  discount_args_valid percentage dollarAmt freeShipping
  /\ exists t, db !! "discounts" = Some t
       /\ (addDiscountToDatabase datetime isoformat discountCode percentage dollarAmt
             freeShipping expirationDate db).2
          = with_discount_row db t
              (discount_row discountCode percentage dollarAmt freeShipping
                 (expiration_text isoformat expirationDate)).
Proof.
  intros Hok.
  by apply (addDiscount_outcome datetime isoformat discountCode percentage dollarAmt
              freeShipping expirationDate db) in Hok.
Qed.

Lemma addDiscountToDatabase_returns_appended_witness :
  let db := (initDiscountDatabase ["y"] ∅).2 in
  (addDiscountToDatabase unit (fun _ => "") "SHIP" None None (Some false) None db).1
  = Ok tt
  /\ discount_args_valid None None (Some false)
  /\ rows_with_code "SHIP"
       (addDiscountToDatabase unit (fun _ => "") "SHIP" None None (Some false) None db).2
     = [[sqlite3.Text "SHIP"; sqlite3.Null; sqlite3.Null; sqlite3.Integer 0;
         sqlite3.Text "NULL"]].
Proof.
  intros db.
  assert (H : (addDiscountToDatabase unit (fun _ => "") "SHIP" None None (Some false)
                 None db).1 = Ok tt) by reflexivity.
  split; [exact H|].
  destruct (addDiscountToDatabase_returns_appended unit _ "SHIP" None None (Some false)
              None db H) as [Hvalid _].
  split; [exact Hvalid|]. vm_compute. reflexivity.
Defined.

(** X18: [addDiscountToDatabase] raises [ValueError] exactly when one
    discount kind is given and it is a percentage outside 1 to 100 or a
    dollar amount below 1, in every state of the store. *)
Theorem addDiscountToDatabase_ValueError_iff
    (datetime : Type) (isoformat : datetime -> string) (discountCode : string)
    (percentage dollarAmt : option Z) (freeShipping : option bool)
    (expirationDate : option datetime) (db : sqlite3.database) :
  (exists msg,
     (addDiscountToDatabase datetime isoformat discountCode percentage dollarAmt
        freeShipping expirationDate db).1 = Raise (ValueError msg))
  <-> count_set percentage dollarAmt freeShipping = 1%nat
      /\ ((exists p, percentage = Some p /\ (p < 1 \/ 100 < p))
          \/ (exists d, dollarAmt = Some d /\ d < 1)).
Proof.
  unfold addDiscountToDatabase.
  destruct (_check_add_discount_args percentage dollarAmt freeShipping) eqn:Hcheck.
  { apply check_add_discount_args_count in Hcheck. split; [by intros [? ?] | tauto]. }
  assert (Hcount : count_set percentage dollarAmt freeShipping = 1%nat).
  { destruct (decide (count_set percentage dollarAmt freeShipping = 1%nat)) as [|Hne];
      [done|]. apply check_add_discount_args_count in Hne. congruence. }
  destruct (match percentage with Some _ => _ | None => _ end) eqn:Hp.
  { split; [|by eexists]. intros _. split; [done|]. left.
    destruct percentage as [p|]; [|done]. exists p. split; [done|].
    apply orb_true_iff in Hp as [H|H]; apply bool_decide_eq_true in H; lia. }
  destruct (match dollarAmt with Some _ => _ | None => _ end) eqn:Hd.
  { split; [|by eexists]. intros _. split; [done|]. right.
    destruct dollarAmt as [d|]; [|done]. exists d. split; [done|].
    by apply bool_decide_eq_true in Hd. }
  split.
  - intros [msg H]. exfalso.
    destruct (sqlite3.adapt_int percentage) as [vp|e1] eqn:Hap.
    2:{ apply adapt_int_raises in Hap as ->. done. }
    destruct (sqlite3.adapt_int dollarAmt) as [vd|e2] eqn:Had.
    2:{ apply adapt_int_raises in Had as ->. done. }
    unfold sqlite3.insert in H. destruct (db !! "discounts") as [t|]; [|done].
    destruct (negb _); [done|]. by destruct (sqlite3.violates_unique t _).
  - intros [_ [(p & -> & Hr)|(d & -> & Hr)]]; exfalso.
    + apply orb_false_elim in Hp as [H1 H2].
      apply bool_decide_eq_false in H1, H2. lia.
    + apply bool_decide_eq_false in Hd. lia.
Qed.

(** X19: on a store whose discounts table has the columns
    [initDiscountDatabase] creates, [addDiscountToDatabase] returns exactly
    when it is given one discount kind, a percentage from 1 to 100 or a
    dollar amount from 1 to [2^63 - 1]; the code and the rows already stored
    play no part. *)
Theorem addDiscountToDatabase_returns_iff
    (datetime : Type) (isoformat : datetime -> string) (discountCode : string)
    (percentage dollarAmt : option Z) (freeShipping : option bool)
    (expirationDate : option datetime) (db : sqlite3.database) (t : sqlite3.table) :
  db !! "discounts" = Some t ->
  sqlite3.columns t = discounts_columns ->
  (addDiscountToDatabase datetime isoformat discountCode percentage dollarAmt
     freeShipping expirationDate db).1 = Ok tt
  <-> discount_args_valid percentage dollarAmt freeShipping.
Proof.
  intros Ht Hcols. split.
  - intros Hok.
    by apply (addDiscount_outcome datetime isoformat discountCode percentage dollarAmt
                freeShipping expirationDate db) in Hok as [? _].
  - intros Hvalid. by rewrite (addDiscount_valid_appends _ _ _ _ _ _ _ _ t).
Qed.

Lemma addDiscountToDatabase_returns_iff_witness :
  let db := (initDiscountDatabase ["y"] ∅).2 in
  let t := {| sqlite3.columns := discounts_columns; sqlite3.rows := [] |} in
  db !! "discounts" = Some t
  /\ sqlite3.columns t = discounts_columns
  /\ ((addDiscountToDatabase unit (fun _ => "") "FIVE" None (Some 500) None None db).1
      = Ok tt
      <-> discount_args_valid None (Some 500) None).
Proof.
  intros db t.
  assert (Ht : db !! "discounts" = Some t) by reflexivity.
  split; [exact Ht|]. split; [reflexivity|].
  exact (addDiscountToDatabase_returns_iff unit _ "FIVE" None (Some 500) None None
           db t Ht eq_refl).
Defined.

(** X20: on a store without a discounts table, [addDiscountToDatabase]
    never returns: with valid arguments it raises [OperationalError], and
    the store stays as it was. *)
Theorem addDiscountToDatabase_without_table
    (datetime : Type) (isoformat : datetime -> string) (discountCode : string)
    (percentage dollarAmt : option Z) (freeShipping : option bool)
    (expirationDate : option datetime) (db : sqlite3.database) :
  db !! "discounts" = None ->
  (addDiscountToDatabase datetime isoformat discountCode percentage dollarAmt
     freeShipping expirationDate db).1 <> Ok tt
  /\ (discount_args_valid percentage dollarAmt freeShipping ->
      addDiscountToDatabase datetime isoformat discountCode percentage dollarAmt
        freeShipping expirationDate db
      = (Raise (OperationalError "no such table"), db)).
Proof.
  intros Hnone. split.
  - intros Hok.
    apply (addDiscount_outcome datetime isoformat discountCode percentage dollarAmt
             freeShipping expirationDate db) in Hok as [_ (t & Ht & _)]. congruence.
  - intros Hvalid. rewrite addDiscount_valid_inserts by done.
    unfold sqlite3.insert. by rewrite Hnone.
Qed.

Lemma addDiscountToDatabase_without_table_witness :
  (∅ : sqlite3.database) !! "discounts" = None
  /\ addDiscountToDatabase unit (fun _ => "") "X10" (Some 10) None None None ∅
     = (Raise (OperationalError "no such table"), ∅).
Proof.
  split; [reflexivity|].
  apply (addDiscountToDatabase_without_table unit _ "X10" (Some 10) None None None ∅);
    [reflexivity|].
  split; [reflexivity|]. split.
  - intros p [= <-]. lia.
  - intros d [=].
Defined.

(** ** Sequences of additions, and the initialisation prompt *)

(** The rows of the discounts table, none when there is no table. *)
Lemma rows_with_code_with_discount_row code db t row :
  db !! "discounts" = Some t ->
  rows_with_code code (with_discount_row db t row)
  = (rows_with_code code db
     ++ filter (fun r => r !! 0%nat = Some (sqlite3.Text code)) [row])%list.
Proof.
  intros Ht. unfold rows_with_code, with_discount_row.
  rewrite lookup_insert_eq, Ht. cbn [sqlite3.rows]. apply filter_app.
Qed.

(** X21: on a store whose discounts table has the columns
    [initDiscountDatabase] creates, a sequence of calls with valid arguments
    appends one row per call, in call order, after the rows already stored,
    whether or not codes repeat, and keeps the columns. *)
Theorem run_discount_calls_appends
    (datetime : Type) (isoformat : datetime -> string)
    (cs : list (discount_call datetime)) (db : sqlite3.database) (t : sqlite3.table) :
  db !! "discounts" = Some t ->
  sqlite3.columns t = discounts_columns ->
  Forall (fun c => discount_args_valid (dc_percentage c) (dc_dollarAmt c)
                     (dc_freeShipping c)) cs ->
  run_discount_calls isoformat cs db =
    <["discounts" :=
        {| sqlite3.columns := discounts_columns;
           sqlite3.rows :=
             (sqlite3.rows t ++
              map (fun c => discount_row (dc_code c) (dc_percentage c) (dc_dollarAmt c)
                              (dc_freeShipping c)
                              (expiration_text isoformat (dc_expirationDate c))) cs)%list
        |}]> db.
Proof.
  revert db t. induction cs as [|c cs IH]; intros db t Ht Hcols Hcs.
  - cbn [run_discount_calls foldl map]. rewrite app_nil_r, <- Hcols.
    symmetry. apply insert_id. rewrite Ht. by destruct t.
  - inversion Hcs as [|? ? Hc Hcs']; subst.
    unfold run_discount_calls in *. cbn [foldl map].
    rewrite (addDiscount_valid_appends _ _ _ _ _ _ _ _ t) by done. cbn [snd].
    unfold with_discount_row.
    erewrite IH; [|apply lookup_insert_eq|exact Hcols|exact Hcs'].
    cbn [sqlite3.rows]. rewrite insert_insert_eq, <- app_assoc. reflexivity.
Qed.

Lemma run_discount_calls_appends_witness :
  let db := (initDiscountDatabase ["y"] ∅).2 in
  let t := {| sqlite3.columns := discounts_columns; sqlite3.rows := [] |} in
  let c1 := {| dc_code := "X10"; dc_percentage := Some 10; dc_dollarAmt := None;
               dc_freeShipping := None; dc_expirationDate := @None unit |} in
  let c2 := {| dc_code := "FIVE"; dc_percentage := None; dc_dollarAmt := Some 500;
               dc_freeShipping := None; dc_expirationDate := Some tt |} in
  db !! "discounts" = Some t
  /\ rows_with_code "X10" (run_discount_calls (fun _ => "2030-01-01T00:00:00") [c1; c2; c1] db)
     = [[sqlite3.Text "X10"; sqlite3.Integer 10; sqlite3.Null; sqlite3.Null;
         sqlite3.Text "NULL"];
        [sqlite3.Text "X10"; sqlite3.Integer 10; sqlite3.Null; sqlite3.Null;
         sqlite3.Text "NULL"]].
Proof.
  intros db t c1 c2.
  assert (Ht : db !! "discounts" = Some t) by reflexivity.
  split; [exact Ht|].
  assert (Hv1 : discount_args_valid (Some 10) None None).
  { split; [reflexivity|]. split; [intros ? [= <-]; lia | intros ? [=]]. }
  assert (Hv2 : discount_args_valid None (Some 500) None).
  { split; [reflexivity|]. split; [intros ? [=] | intros ? [= <-]; lia]. }
  rewrite (run_discount_calls_appends unit _ [c1; c2; c1] db t Ht eq_refl).
  - vm_compute. reflexivity.
  - constructor; [exact Hv1|]. constructor; [exact Hv2|].
    constructor; [exact Hv1|]. constructor.
Defined.

Section InitPrompt.

Lemma initDiscountDatabase_loop_undecided response stdin :
  undecided response ->
  initDiscountDatabase_loop response stdin = initDiscountDatabase stdin.
Proof.
  unfold undecided. intros Hr.
  destruct stdin as [|r' stdin']; cbn [initDiscountDatabase_loop initDiscountDatabase];
    destruct (first_lower response) as [c|]; try done;
    destruct Hr as [Hy Hn];
    destruct (decide (c = "y"%char)); try done;
    destruct (decide (c = "n"%char)); done.
Qed.

Lemma initDiscountDatabase_loop_decided response stdin :
  ~ undecided response ->
  initDiscountDatabase_loop response stdin = initDiscountDatabase_loop response [].
Proof.
  unfold undecided. intros Hr.
  destruct stdin as [|r' stdin']; [done|]. cbn [initDiscountDatabase_loop].
  destruct (first_lower response) as [c|]; [|done].
  destruct (decide (c = "y"%char)); [done|].
  destruct (decide (c = "n"%char)); [done|]. by destruct Hr.
Qed.

(** The prompt either leaves the store as it is or, on a store without a
    discounts table, adds the empty table. *)
Lemma initDiscountDatabase_loop_store stdin : forall response db,
  (initDiscountDatabase_loop response stdin db).2 = db
  \/ (db !! "discounts" = None
      /\ initDiscountDatabase_loop response stdin db
         = (Ok tt, <["discounts" := {| sqlite3.columns := discounts_columns;
                                        sqlite3.rows := [] |}]> db)).
Proof.
  induction stdin as [|r' stdin' IH]; intros response db;
    cbn [initDiscountDatabase_loop];
    (destruct (first_lower response) as [c|]; [|by left]);
    (destruct (decide (c = "y"%char));
     [unfold sqlite3.create_table; destruct (db !! "discounts"); [by left | by right]|]);
    (destruct (decide (c = "n"%char)); [by left|]).
  - by left.
  - apply IH.
Qed.

End InitPrompt.

(** X22: [initDiscountDatabase] passes over every response that is not
    empty and starts with none of [y], [Y], [n], [N]; the first other
    response decides alone, whatever is typed after it; and when every
    response is passed over, the call ends with [EOFError] and the store
    unchanged. *)
Theorem initDiscountDatabase_first_decisive
    (skipped : list string) (response : string) (rest : list string)
    (db : sqlite3.database) :
  Forall undecided skipped ->
  (~ undecided response ->
   initDiscountDatabase (skipped ++ response :: rest) db
   = initDiscountDatabase [response] db)
  /\ initDiscountDatabase skipped db = (Raise EOFError, db).
Proof.
  intros Hskip. induction Hskip as [|r skipped Hr _ [IHd IHe]].
  - split; [|done]. intros Hd. cbn [app initDiscountDatabase].
    by rewrite initDiscountDatabase_loop_decided.
  - cbn [app initDiscountDatabase]. split.
    + by rewrite (initDiscountDatabase_loop_undecided r _ Hr).
    + by rewrite (initDiscountDatabase_loop_undecided r _ Hr).
Qed.

Lemma initDiscountDatabase_first_decisive_witness :
  Forall undecided ["maybe"; "x"; "?"]
  /\ ~ undecided "Yes please"
  /\ initDiscountDatabase (["maybe"; "x"; "?"] ++ "Yes please" :: ["n"; ""]) ∅
     = (Ok tt, {[ "discounts" := {| sqlite3.columns := discounts_columns;
                                    sqlite3.rows := [] |} ]})
  /\ initDiscountDatabase ["maybe"; "x"; "?"] ∅ = (Raise EOFError, ∅).
Proof.
  assert (Hs : Forall undecided ["maybe"; "x"; "?"]).
  { repeat constructor; discriminate. }
  assert (Hd : ~ undecided "Yes please") by (intros [H _]; by apply H).
  split; [exact Hs|]. split; [exact Hd|].
  destruct (initDiscountDatabase_first_decisive ["maybe"; "x"; "?"] "Yes please"
              ["n"; ""] ∅ Hs) as [H1 H2].
  split; [rewrite (H1 Hd); reflexivity | exact H2].
Defined.

(** X23: whatever is typed, [initDiscountDatabase] either leaves the store
    exactly as it was or, on a store without a discounts table, returns
    having added the empty table with the five columns; in particular it
    never changes or empties a discounts table that exists. *)
Theorem initDiscountDatabase_never_overwrites
    (stdin : list string) (db : sqlite3.database) :
  ((initDiscountDatabase stdin db).2 = db
   \/ (db !! "discounts" = None
       /\ initDiscountDatabase stdin db
          = (Ok tt, <["discounts" := {| sqlite3.columns := discounts_columns;
                                         sqlite3.rows := [] |}]> db)))
  /\ (is_Some (db !! "discounts") -> (initDiscountDatabase stdin db).2 = db).
Proof.
  assert (H : (initDiscountDatabase stdin db).2 = db
              \/ (db !! "discounts" = None
                  /\ initDiscountDatabase stdin db
                     = (Ok tt, <["discounts" := {| sqlite3.columns := discounts_columns;
                                                    sqlite3.rows := [] |}]> db))).
  { destruct stdin as [|response stdin']; [by left|].
    apply initDiscountDatabase_loop_store. }
  split; [exact H|]. intros [t Ht]. destruct H as [H|[Hnone _]]; [done | congruence].
Qed.

Lemma initDiscountDatabase_never_overwrites_witness :
  let db := (addDiscountToDatabase unit (fun _ => "") "X10" (Some 10) None None None
               (initDiscountDatabase ["y"] ∅).2).2 in
  is_Some (db !! "discounts")
  /\ initDiscountDatabase ["y"] db
     = (Raise (OperationalError "table already exists"), db).
Proof.
  intros db.
  assert (Hs : is_Some (db !! "discounts")) by (eexists; reflexivity).
  split; [exact Hs|].
  destruct (initDiscountDatabase_never_overwrites ["y"] db) as [_ H].
  specialize (H Hs). destruct (initDiscountDatabase ["y"] db) as [r db'] eqn:Hrun.
  cbn [snd] in H. subst db'. f_equal.
  apply (f_equal fst) in Hrun. cbn [fst] in Hrun. rewrite <- Hrun. reflexivity.
Defined.
